(** * Repair-service marketplace backend: order router and SMS authentication

    A shallow embedding of [src/models.py], [src/schemas.py],
    [src/routers/orders.py], [src/routers/auth.py], [src/auth.py] and the
    status switches of [src/routers/users.py] and [src/routers/pvz.py],
    followed by the properties of the order routes and of the
    one-time-code flow.

    Conventions of the embedding.
    - A handler is given what FastAPI hands it. The dependency
      [get_current_active_user] of [src/auth.py] returns a [dict]
      ([PyDict]), while the handlers are annotated with the mapped class
      [User] and read [current_user.role] and [current_user.id]: on a dict
      such a read raises [AttributeError].
    - [db.query(C)] on a mapped class first configures the mappers of
      [src/models.py]. [Mappers.configure_mappers] is that step on the
      relationships as they are declared; it fails, because [User.reviews]
      names no [foreign_keys] and [reviews] has two foreign keys to
      [users]. Every handler that goes through [db.query] raises there.
      The authentication code uses [db.execute(text(...))], which does not
      involve the mappers.
    - [HTTPException] is the error of the [result] type; any other
      exception that leaves a handler is answered with 500 "Internal Server
      Error". A handler that raises leaves the tables as the code leaves
      them.
    - Python [float] columns are IEEE binary64 values ([PrimFloat.float]);
      [time.time()] readings are integers, only their order and sums matter.
    - The storage engine is reliable: [db.commit()] applies the pending
      writes; the database errors modelled are the unique index on
      [orders.order_number] and the foreign key of [orders.service_id]. *)

From Stdlib Require Import ZArith Bool Ascii String List PrimFloat.
From stdpp Require Import gmap strings pretty list fin_maps sorting.

Local Open Scope string_scope.
Local Open Scope Z_scope.

(** ** Results of a handler *)

Record HTTPException := { status_code : Z; detail : string }.

Inductive result (A : Type) : Type :=
| Ok (a : A)
| Raise (e : HTTPException).
Arguments Ok {A} a.
Arguments Raise {A} e.

Definition HTTP_400_BAD_REQUEST : Z := 400.
Definition HTTP_403_FORBIDDEN : Z := 403.
Definition HTTP_404_NOT_FOUND : Z := 404.
Definition HTTP_500_INTERNAL_SERVER_ERROR : Z := 500.

Definition is_ok {A} (r : result A) : bool :=
  match r with Ok _ => true | Raise _ => false end.


(** ** models.py *)

Module Models.

Inductive OrderStatus :=
| CREATED | RECEIVED | SENT_TO_SERVICE | DIAGNOSING | PRICE_PROPOSED
| CONFIRMED | REJECTED | IN_WORK | READY | READY_FOR_PICKUP | DELIVERED.

Inductive OrderCategory := TECH | CLOTHES | SHOES.
Inductive PaymentMethod := ONLINE | CASH.

#[export] Instance OrderStatus_eq_dec : EqDecision OrderStatus.
Proof. solve_decision. Defined.


(** The columns of [users] that the handlers read or write. [role] is a
    plain [String] column. *)
Record User := {
  user_id : Z;
  phone_number : string;
  role : string;
  is_active : bool }.

(** The columns of [pvz] that the routers read or write; [updated_at] is
    set by the server on every UPDATE of the row ([onupdate=func.now()]). *)
Record PVZ := {
  pvz_id : Z;
  pvz_user_id : Z;
  pvz_is_active : bool;
  pvz_updated_at : option Z }.

(** The columns of [orders] written by the order router, plus [created_at]
    (server default), which orders the listing, and [updated_at], set by
    the server on every UPDATE of the row. [service_id] and [status] are
    nullable columns. *)
Record Order := {
  id : Z;
  order_number : string;
  client_id : Z;
  service_id : option Z;
  receive_pvz_id : Z;
  delivery_pvz_id : Z;
  category : OrderCategory;
  subcategory : string;
  description : string;
  price_limit : option float;
  proposed_price : option float;
  final_price : option float;
  payment_method : PaymentMethod;
  status : option OrderStatus;
  price_justification : option string;
  created_at : Z;
  updated_at : option Z;
  received_at : option Z;
  delivered_at : option Z }.

(** The tables, with the next value of the [orders.id] and [users.id]
    sequences. *)
Record Db := {
  users : list User;
  pvz : list PVZ;
  orders : list Order;
  next_order_id : Z;
  next_user_id : Z }.

End Models.
Export Models.

(** ** models.py: the relationships between the mapped classes

    SQLAlchemy derives the join condition of a [relationship()] that
    names neither [foreign_keys] nor [primaryjoin] from the foreign keys
    between the two tables: exactly one must link them. With none it raises
    [NoForeignKeysError], with several [AmbiguousForeignKeysError]. The
    mappers are configured together, the first time one of them is used;
    an error there is raised to the caller. *)

Module Mappers.

(** [Column(..., ForeignKey("target.id"))] on [fk_table.fk_column]. *)
Record ForeignKey := { fk_table : string; fk_column : string; fk_target : string }.

Definition fk (t c target : string) : ForeignKey :=
  {| fk_table := t; fk_column := c; fk_target := target |}.

Definition foreign_keys : list ForeignKey :=
  [ fk "services" "user_id" "users";
    fk "pvz" "user_id" "users";
    fk "service_offerings" "service_id" "services";
    fk "service_areas" "service_id" "services";
    fk "orders" "user_id" "users";
    fk "orders" "client_id" "users";
    fk "orders" "service_id" "users";
    fk "orders" "receive_pvz_id" "pvz";
    fk "orders" "delivery_pvz_id" "pvz";
    fk "order_photos" "order_id" "orders";
    fk "reviews" "order_id" "orders";
    fk "reviews" "client_id" "users";
    fk "reviews" "service_id" "users";
    fk "chat_messages" "order_id" "orders";
    fk "chat_messages" "sender_id" "users" ].

(** [name = relationship("Target", ...)] in the body of a class:
    [rel_table] and [rel_target] are the tables of the two classes,
    [rel_foreign_keys] tells whether [foreign_keys=] is given. *)
Record Relationship := {
  rel_class : string;
  rel_table : string;
  rel_name : string;
  rel_target : string;
  rel_foreign_keys : bool }.

Definition rel (c t n target : string) (given : bool) : Relationship :=
  {| rel_class := c; rel_table := t; rel_name := n; rel_target := target;
     rel_foreign_keys := given |}.

(** The relationships of [models.py], in the order of the file. *)
Definition relationships : list Relationship :=
  [ rel "User" "users" "orders" "orders" true;
    rel "User" "users" "service_orders" "orders" true;
    rel "User" "users" "reviews" "reviews" false;
    rel "User" "users" "received_reviews" "reviews" false;
    rel "Service" "services" "user" "users" false;
    rel "Service" "services" "services_offered" "service_offerings" false;
    rel "Service" "services" "service_areas" "service_areas" false;
    rel "PVZ" "pvz" "user" "users" false;
    rel "PVZ" "pvz" "orders_received" "orders" true;
    rel "PVZ" "pvz" "orders_delivered" "orders" true;
    rel "ServiceOffering" "service_offerings" "service" "services" false;
    rel "ServiceArea" "service_areas" "service" "services" false;
    rel "Order" "orders" "user" "users" true;
    rel "Order" "orders" "client" "users" true;
    rel "Order" "orders" "service" "users" true;
    rel "Order" "orders" "receive_pvz" "pvz" true;
    rel "Order" "orders" "delivery_pvz" "pvz" true;
    rel "Order" "orders" "reviews" "reviews" false;
    rel "Order" "orders" "order_photos" "order_photos" false;
    rel "OrderPhoto" "order_photos" "order" "orders" false;
    rel "Review" "reviews" "order" "orders" false;
    rel "Review" "reviews" "client" "users" true;
    rel "Review" "reviews" "service" "users" true;
    rel "ChatMessage" "chat_messages" "order" "orders" false;
    rel "ChatMessage" "chat_messages" "sender" "users" false ].

(** The foreign keys that link the tables [a] and [b], in either
    direction. *)
Definition links (a b : string) (k : ForeignKey) : bool :=
  ((fk_table k =? a)%string && (fk_target k =? b)%string)
  || ((fk_table k =? b)%string && (fk_target k =? a)%string).

Definition join_paths (r : Relationship) : list ForeignKey :=
  List.filter (links (rel_table r) (rel_target r)) foreign_keys.

Definition no_join_condition (r : Relationship) : string :=
  "Could not determine join condition between parent/child tables on relationship "
  +:+ rel_class r +:+ "." +:+ rel_name r.

(** The error of one relationship, if it has one. *)
Definition check (r : Relationship) : option string :=
  if rel_foreign_keys r then None
  else match join_paths r with
       | [] => Some (no_join_condition r
                     +:+ " - there are no foreign keys linking these tables.")
       | [_] => None
       | _ => Some (no_join_condition r
                    +:+ " - there are multiple foreign key paths linking the tables.")
       end.

(** The first error met, in the order of the file. *)
Definition configure_mappers : option string :=
  foldr (fun r rest => match check r with Some e => Some e | None => rest end)
        None relationships.

End Mappers.

(** ** What a handler is given, and how its exceptions are answered *)

Module Python.

(** The value bound to [current_user]: the dictionary returned by
    [get_current_active_user], or an instance of the mapped class [User],
    which is what the annotation of the handlers names. *)
Inductive PyUser :=
| PyDict (row : User)
| PyObject (row : User).


(** What a statement of a handler can raise. [MapperError] is the error of
    the mapper configuration ([AmbiguousForeignKeysError] at the first use
    of the mappers, [InvalidRequestError] at every later one) with the
    text of the first; [IntegrityError] is the database refusing a write
    at [db.commit()]. *)
Inductive Exception :=
| HTTP (e : HTTPException)
| AttributeError (text : string)
| MapperError (text : string)
| IntegrityError.

Definition and_then {A B} (c : Exception + A) (k : A -> Exception + B)
    : Exception + B :=
  match c with inl e => inl e | inr a => k a end.

Definition no_attribute (name : string) : Exception :=
  AttributeError ("'dict' object has no attribute '" +:+ name +:+ "'").

(** [current_user.role] *)
Definition get_role (u : PyUser) : Exception + string :=
  match u with
  | PyDict _ => inl (no_attribute "role")
  | PyObject row => inr (role row)
  end.

(** [current_user.id] *)
Definition get_id (u : PyUser) : Exception + Z :=
  match u with
  | PyDict _ => inl (no_attribute "id")
  | PyObject row => inr (user_id row)
  end.

(** [db.query(C)] on the mapped class [C] whose table holds [rows]: the
    mappers are configured before the query is built. *)
Definition query {A} (rows : list A) : Exception + list A :=
  match Mappers.configure_mappers with
  | Some e => inl (MapperError e)
  | None => inr rows
  end.

(** The answer of the server to an exception that no handler caught. *)
Definition INTERNAL_SERVER_ERROR : HTTPException :=
  {| status_code := 500; detail := "Internal Server Error" |}.

(** The answer to a request whose handler ended as [r]. *)
Definition respond {A} (r : Exception + A) : result A :=
  match r with
  | inr a => Ok a
  | inl (HTTP e) => Raise e
  | inl _ => Raise INTERNAL_SERVER_ERROR
  end.

(** The answer and the tables after a handler that writes: without a
    commit the session is closed and the pending writes are dropped. *)
Definition respond_with {A} (db : Db) (r : Exception + (A * Db)) : result A * Db :=
  match r with
  | inr (a, db') => (Ok a, db')
  | inl (HTTP e) => (Raise e, db)
  | inl _ => (Raise INTERNAL_SERVER_ERROR, db)
  end.

(** [a and b], [b] evaluated only when [a] is true. *)
Definition and_also (a b : Exception + bool) : Exception + bool :=
  and_then a (fun x => if x then b else inr false).

(** [current_user.role == r] *)
Definition role_is (u : PyUser) (r : string) : Exception + bool :=
  and_then (get_role u) (fun x => inr (x =? r)%string).

(** [column == current_user.id] *)
Definition id_is (u : PyUser) (v : Z) : Exception + bool :=
  and_then (get_id u) (fun x => inr (v =? x)).

End Python.
Export Python.

Notation "'let?' x ':=' c 'in' k" := (and_then c (fun x => k))
  (at level 10, x name, c at level 100, k at level 200).

(** ** schemas.py: request bodies of the order router *)

Module Schemas.

Record OrderCreate := {
  oc_category : OrderCategory;
  oc_subcategory : string;
  oc_description : string;
  oc_price_limit : option float;
  oc_payment_method : PaymentMethod;
  oc_receive_pvz_id : Z;
  oc_delivery_pvz_id : Z }.

(** Every field of [OrderUpdate] is [Optional] with default [None], and the
    handler reads it with [dict(exclude_unset=True)]: a field is either
    absent from the request ([None] here) or set, possibly to null
    ([Some None]). *)
Record OrderUpdate := {
  ou_status : option (option OrderStatus);
  ou_proposed_price : option (option float);
  ou_final_price : option (option float);
  ou_price_justification : option (option string);
  ou_service_id : option (option Z) }.

End Schemas.
Export Schemas.

(** ** routers/orders.py *)

Module Orders.

(** [.filter(p).first()] *)
Definition first {A} (p : A -> bool) (rows : list A) : option A :=
  List.find p rows.



(** [column == value] on a nullable integer column *)
Definition opt_eqb (c : option Z) (v : Z) : bool :=
  match c with Some x => x =? v | None => false end.

Definition detail_only_clients : string := "Только клиенты могут создавать заказы".
Definition detail_pvz_not_found : string := "ПВЗ не найден".
Definition detail_order_not_found : string := "Заказ не найден".
Definition detail_no_update_rights : string := "Нет прав на обновление заказа".
Definition detail_create_failed (e : string) : string :=
  "Ошибка при создании заказа: " +:+ e.

Definition http (c : Z) (d : string) : Exception :=
  HTTP {| status_code := c; detail := d |}.

Definition with_orders (db : Db) (os : list Order) (next : Z) : Db :=
  {| users := users db; pvz := pvz db; orders := os;
     next_order_id := next; next_user_id := next_user_id db |}.

(** [create_order]. [order_number] is the string built from the date and
    the uuid, [now] the server time that fills [created_at], [driver_text]
    the text of the driver's error for a duplicate [order_number]. The body
    of the [try] comes first, the two [except] clauses last. *)
Definition create_order (order_number : string) (now : Z) (driver_text : string)
    (order_data : OrderCreate) (current_user : PyUser) (db : Db)
    : result Order * Db :=
  let body : Exception + (Order * Db) :=
    let? role := get_role current_user in
    if negb (role =? "client")%string then
      inl (http HTTP_403_FORBIDDEN detail_only_clients)
    else
      let? rows := query (pvz db) in
      let receive_pvz := first (fun p => pvz_id p =? oc_receive_pvz_id order_data) rows in
      let? rows := query (pvz db) in
      let delivery_pvz := first (fun p => pvz_id p =? oc_delivery_pvz_id order_data) rows in
      match receive_pvz, delivery_pvz with
      | Some _, Some _ =>
          let? uid := get_id current_user in
          let order := {|
            id := next_order_id db;
            order_number := order_number;
            client_id := uid;
            service_id := None;
            receive_pvz_id := oc_receive_pvz_id order_data;
            delivery_pvz_id := oc_delivery_pvz_id order_data;
            category := oc_category order_data;
            subcategory := oc_subcategory order_data;
            description := oc_description order_data;
            price_limit := oc_price_limit order_data;
            proposed_price := None;
            final_price := None;
            payment_method := oc_payment_method order_data;
            status := Some CREATED;
            price_justification := None;
            created_at := now;
            updated_at := None;
            received_at := None;
            delivered_at := None |} in
          if existsb (fun o => (Models.order_number o =? order_number)%string) (orders db)
          then inl IntegrityError
          else inr (order, with_orders db (orders db ++ [order]) (next_order_id db + 1))
      | _, _ => inl (http HTTP_404_NOT_FOUND detail_pvz_not_found)
      end in
  match body with
  | inr (order, db') => (Ok order, db')
  | inl (HTTP e) => (Raise e, db)
  | inl (AttributeError text) | inl (MapperError text) =>
      (Raise {| status_code := HTTP_500_INTERNAL_SERVER_ERROR;
                detail := detail_create_failed text |}, db)
  | inl IntegrityError =>
      (Raise {| status_code := HTTP_500_INTERNAL_SERVER_ERROR;
                detail := detail_create_failed driver_text |}, db)
  end.


Definition Z_in (x : Z) (l : list Z) : bool := existsb (Z.eqb x) l.

(** [if status_filter: query.filter(Order.status == status_filter)]; every
    member of the [OrderStatus] enum is a non-empty string, hence truthy. *)
Definition status_matches (status_filter : option OrderStatus) (o : Order) : bool :=
  match status_filter with
  | None => true
  | Some s => match status o with Some s' => bool_decide (s' = s) | None => false end
  end.

(** [order_by(Order.created_at.desc())]: newest first. *)
Definition newer_first (a b : Order) : Prop := created_at b <= created_at a.

#[export] Instance newer_first_dec : RelDecision newer_first.
Proof. intros a b. unfold newer_first. apply _. Defined.

(** [get_orders] *)
Definition get_orders (status_filter : option OrderStatus)
    (current_user : PyUser) (db : Db) : result (list Order) :=
  respond (
    let? rows := query (orders db) in
    let? role := get_role current_user in
    let? rows :=
      if (role =? "client")%string then
        let? uid := get_id current_user in
        inr (List.filter (fun o => client_id o =? uid) rows)
      else if (role =? "service")%string then
        let? uid := get_id current_user in
        inr (List.filter (fun o => opt_eqb (service_id o) uid) rows)
      else if (role =? "pvz")%string then
        let? points := query (pvz db) in
        let? uid := get_id current_user in
        let ids := map pvz_id (List.filter (fun p => pvz_user_id p =? uid) points) in
        inr (List.filter (fun o => Z_in (receive_pvz_id o) ids
                                   || Z_in (delivery_pvz_id o) ids) rows)
      else inr rows in
    let rows := List.filter (status_matches status_filter) rows in
    inr (merge_sort newer_first rows)).

(** The checks of [update_order] on the caller. *)
Definition can_update (current_user : PyUser) (order : Order) : Exception + bool :=
  let? client := and_also (role_is current_user "client")
                          (id_is current_user (client_id order)) in
  if client then inr true
  else
    let? service := and_also (role_is current_user "service")
                             (match service_id order with
                              | Some s => id_is current_user s
                              | None => let? _ := get_id current_user in inr false
                              end) in
    if service then inr true
    else role_is current_user "admin".

(** [for field, value in update_data.items(): setattr(order, field, value)] *)
Definition set_fields (order_update : OrderUpdate) (o : Order) : Order :=
  let upd {A} (f : option A) (old : A) : A := match f with Some v => v | None => old end in
  {| id := id o;
     order_number := order_number o;
     client_id := client_id o;
     service_id := upd (ou_service_id order_update) (service_id o);
     receive_pvz_id := receive_pvz_id o;
     delivery_pvz_id := delivery_pvz_id o;
     category := category o;
     subcategory := subcategory o;
     description := description o;
     price_limit := price_limit o;
     proposed_price := upd (ou_proposed_price order_update) (proposed_price o);
     final_price := upd (ou_final_price order_update) (final_price o);
     payment_method := payment_method o;
     status := upd (ou_status order_update) (status o);
     price_justification := upd (ou_price_justification order_update) (price_justification o);
     created_at := created_at o;
     updated_at := updated_at o;
     received_at := received_at o;
     delivered_at := delivered_at o |}.

(** [a == b] on a nullable column. *)
Definition same {A} (eq : A -> A -> bool) (a b : option A) : bool :=
  match a, b with
  | Some x, Some y => eq x y
  | None, None => true
  | _, _ => false
  end.

(** No column written by [set_fields] has a new value: the session then
    sends no UPDATE. *)
Definition unchanged (old new : Order) : bool :=
  same Z.eqb (service_id old) (service_id new)
  && same PrimFloat.eqb (proposed_price old) (proposed_price new)
  && same PrimFloat.eqb (final_price old) (final_price new)
  && same (fun a b => bool_decide (a = b)) (status old) (status new)
  && same String.eqb (price_justification old) (price_justification new).

(** The row as the UPDATE leaves it: [updated_at] is set by the server. *)
Definition touched (now : Z) (o : Order) : Order :=
  {| id := id o; order_number := order_number o; client_id := client_id o;
     service_id := service_id o; receive_pvz_id := receive_pvz_id o;
     delivery_pvz_id := delivery_pvz_id o; category := category o;
     subcategory := subcategory o; description := description o;
     price_limit := price_limit o; proposed_price := proposed_price o;
     final_price := final_price o; payment_method := payment_method o;
     status := status o; price_justification := price_justification o;
     created_at := created_at o; updated_at := Some now;
     received_at := received_at o; delivered_at := delivered_at o |}.

(** The row of that primary key is replaced. *)
Definition store_order (db : Db) (o : Order) : Db :=
  with_orders db (map (fun r => if id r =? id o then o else r) (orders db)) (next_order_id db).

(** [db.commit()] and [db.refresh(order)] after the attribute writes. A
    new [service_id] must be the id of a row of [users]. *)
Definition commit_order (now : Z) (db : Db) (old new : Order)
    : Exception + (Order * Db) :=
  if unchanged old new then inr (old, db)
  else
    let dangling :=
      match service_id new with
      | Some s => negb (same Z.eqb (service_id old) (service_id new))
                  && negb (existsb (fun u => user_id u =? s) (users db))
      | None => false
      end in
    if dangling then inl IntegrityError
    else let stored := touched now new in inr (stored, store_order db stored).

(** [update_order]; [now] is the server time of the UPDATE. *)
Definition update_order (now : Z) (order_id : Z) (order_update : OrderUpdate)
    (current_user : PyUser) (db : Db) : result Order * Db :=
  respond_with db (
    let? rows := query (orders db) in
    match first (fun o => id o =? order_id) rows with
    | None => inl (http HTTP_404_NOT_FOUND detail_order_not_found)
    | Some order =>
        let? allowed := can_update current_user order in
        if negb allowed then
          inl (http HTTP_403_FORBIDDEN detail_no_update_rights)
        else
          commit_order now db order (set_fields order_update order)
    end).

End Orders.

(** ** The process state of the authentication router *)

Module Runtime.

Inductive Level := INFO | WARNING | ERROR.

Record LogRecord := { level : Level; message : string }.

(** A stored one-time code with the time at which it stops being valid. *)
Record Entry := { code : string; expires : Z }.

(** [redis_client] is [false] when [self.redis_client] is [None];
    [redis_keys] is the key space of the Redis server;
    [dev_sms_storage] and [dev_storage_cleanup_time] are the module
    globals; [log] is what [logger] has written, oldest first; [stdout] is
    what [print] has written; [db] the tables. *)
Record World := {
  redis_client : bool;
  redis_keys : gmap string Entry;
  dev_sms_storage : gmap string Entry;
  dev_storage_cleanup_time : Z;
  log : list LogRecord;
  stdout : list string;
  db : Db }.

(** What one call of a storage method meets outside the process:
    [redis_reply] is [None] when the Redis command of the call returns and
    [Some e] when it raises [e]; [redis_time] is the server's clock when
    the command runs; [clock k] is the [k]-th reading of [time.time()]
    made by the call. *)
Record Env := {
  redis_reply : option string;
  redis_time : Z;
  clock : nat -> Z }.

(** State passing with sequencing notation. *)
Definition St (A : Type) : Type := World -> A * World.

Definition ret {A} (a : A) : St A := fun w => (a, w).
Definition bind {A B} (c : St A) (k : A -> St B) : St B :=
  fun w => let (a, w') := c w in k a w'.

Definition set_redis_client (b : bool) : St unit := fun w =>
  (tt, {| redis_client := b; redis_keys := redis_keys w;
          dev_sms_storage := dev_sms_storage w;
          dev_storage_cleanup_time := dev_storage_cleanup_time w;
          log := log w; stdout := stdout w; db := db w |}).

Definition set_redis_keys (r : gmap string Entry) : St unit := fun w =>
  (tt, {| redis_client := redis_client w; redis_keys := r;
          dev_sms_storage := dev_sms_storage w;
          dev_storage_cleanup_time := dev_storage_cleanup_time w;
          log := log w; stdout := stdout w; db := db w |}).

Definition set_dev_sms_storage (d : gmap string Entry) : St unit := fun w =>
  (tt, {| redis_client := redis_client w; redis_keys := redis_keys w;
          dev_sms_storage := d;
          dev_storage_cleanup_time := dev_storage_cleanup_time w;
          log := log w; stdout := stdout w; db := db w |}).

Definition set_dev_storage_cleanup_time (t : Z) : St unit := fun w =>
  (tt, {| redis_client := redis_client w; redis_keys := redis_keys w;
          dev_sms_storage := dev_sms_storage w;
          dev_storage_cleanup_time := t;
          log := log w; stdout := stdout w; db := db w |}).

Definition set_db (d : Db) : St unit := fun w =>
  (tt, {| redis_client := redis_client w; redis_keys := redis_keys w;
          dev_sms_storage := dev_sms_storage w;
          dev_storage_cleanup_time := dev_storage_cleanup_time w;
          log := log w; stdout := stdout w; db := d |}).

Definition emit (l : Level) (msg : string) : St unit := fun w =>
  (tt, {| redis_client := redis_client w; redis_keys := redis_keys w;
          dev_sms_storage := dev_sms_storage w;
          dev_storage_cleanup_time := dev_storage_cleanup_time w;
          log := log w ++ [{| level := l; message := msg |}];
          stdout := stdout w; db := db w |}).

Definition print (line : string) : St unit := fun w =>
  (tt, {| redis_client := redis_client w; redis_keys := redis_keys w;
          dev_sms_storage := dev_sms_storage w;
          dev_storage_cleanup_time := dev_storage_cleanup_time w;
          log := log w; stdout := stdout w ++ [line]; db := db w |}).

Definition logger_info := emit INFO.
Definition logger_warning := emit WARNING.
Definition logger_error := emit ERROR.

End Runtime.
Export Runtime.

Notation "'let*' x ':=' c 'in' k" := (bind c (fun x => k))
  (at level 10, x name, c at level 100, k at level 200).
Notation "c ';;' k" := (bind c (fun _ => k))
  (at level 100, k at level 200, right associativity).

(** ** The Redis commands the storage class calls

    Redis is an external server; its three commands are taken with their
    documented behaviour: [SETEX key seconds value] rejects a non-positive
    number of seconds and otherwise stores the value for that many seconds,
    [GET] returns nothing for a key that is absent or past its time,
    [DEL] removes the key. Any command can fail (connection lost, timeout):
    that is [redis_reply] of the call. *)

Module Redis.

Definition invalid_expire : string := "invalid expire time in 'setex' command".

Definition setex (env : Env) (key : string) (ttl : Z) (value : string)
    : St (option string) := fun w =>
  match redis_reply env with
  | Some e => (Some e, w)
  | None =>
      if ttl <=? 0 then (Some invalid_expire, w)
      else
        let e := {| code := value; expires := redis_time env + ttl |} in
        let (_, w') := set_redis_keys (<[key := e]> (redis_keys w)) w in
        (None, w')
  end.

Definition get (env : Env) (key : string) : St (string + option string) := fun w =>
  match redis_reply env with
  | Some e => (inl e, w)
  | None =>
      match redis_keys w !! key with
      | Some e => if redis_time env <? expires e then (inr (Some (code e)), w)
                  else (inr None, w)
      | None => (inr None, w)
      end
  end.

Definition del (env : Env) (key : string) : St (option string) := fun w =>
  match redis_reply env with
  | Some e => (Some e, w)
  | None =>
      let (_, w') := set_redis_keys (delete key (redis_keys w)) w in (None, w')
  end.

End Redis.

(** ** routers/auth.py: class SMSStorage *)

Module SMSStorage.

Definition sms_key (phone_number : string) : string := "sms_code:" +:+ phone_number.

(** [len(expired_phones)] in the sweep's log line. *)
Definition str_nat (n : nat) : string := pretty (Z.of_nat n).

Definition _set_sms_code_fallback (env : Env) (phone_number code : string) (ttl : Z)
    : St bool :=
  let* d := (fun w => (dev_sms_storage w, w)) in
  set_dev_sms_storage
    (<[phone_number := {| code := code; expires := clock env 0 + ttl |}]> d) ;;
  logger_info ("Код сохранен в памяти для " +:+ phone_number) ;;
  ret true.

Definition set_sms_code (env : Env) (phone_number code : string) (ttl : Z)
    : St bool :=
  let* client := (fun w => (redis_client w, w)) in
  if client then
    let* r := Redis.setex env (sms_key phone_number) ttl code in
    match r with
    | None => ret true
    | Some e =>
        logger_error ("Ошибка сохранения в Redis: " +:+ e) ;;
        set_redis_client false ;;
        _set_sms_code_fallback env phone_number code ttl
    end
  else _set_sms_code_fallback env phone_number code ttl.

(** [[phone for phone, data in dev_sms_storage.items()
      if current_time >= data['expires']]] *)
Definition expired_phones (current_time : Z) (d : gmap string Entry) : list string :=
  map fst (List.filter (fun kv => expires (snd kv) <=? current_time) (map_to_list d)).

(** [for phone in expired_phones: del dev_sms_storage[phone]] *)
Definition delete_each (phones : list string) (d : gmap string Entry)
    : gmap string Entry :=
  fold_left (fun m phone => delete phone m) phones d.

(** [_cleanup_expired_codes], reading the clock at [current_time]. *)
Definition _cleanup_expired_codes (current_time : Z) : St unit :=
  let* d := (fun w => (dev_sms_storage w, w)) in
  let expired := expired_phones current_time d in
  set_dev_sms_storage (delete_each expired d) ;;
  match expired with
  | [] => ret tt
  | _ => logger_info ("Очищено " +:+ str_nat (length expired)
                      +:+ " устаревших кодов")
  end.

Definition _get_sms_code_fallback (env : Env) (phone_number : string)
    : St (option string) :=
  let* last := (fun w => (dev_storage_cleanup_time w, w)) in
  let sweep := 300 <? clock env 0 - last in
  (if sweep then
     _cleanup_expired_codes (clock env 1) ;;
     set_dev_storage_cleanup_time (clock env 2)
   else ret tt) ;;
  let read := if sweep then clock env 3 else clock env 1 in
  let* d := (fun w => (dev_sms_storage w, w)) in
  match d !! phone_number with
  | Some data =>
      if read <? expires data then ret (Some (code data))
      else set_dev_sms_storage (delete phone_number d) ;; ret None
  | None => ret None
  end.

Definition get_sms_code (env : Env) (phone_number : string) : St (option string) :=
  let* client := (fun w => (redis_client w, w)) in
  if client then
    let* r := Redis.get env (sms_key phone_number) in
    match r with
    | inr v => ret v
    | inl e =>
        logger_error ("Ошибка чтения из Redis: " +:+ e) ;;
        set_redis_client false ;;
        _get_sms_code_fallback env phone_number
    end
  else _get_sms_code_fallback env phone_number.

Definition _delete_sms_code_fallback (phone_number : string) : St unit :=
  let* d := (fun w => (dev_sms_storage w, w)) in
  set_dev_sms_storage (delete phone_number d).

Definition delete_sms_code (env : Env) (phone_number : string) : St unit :=
  let* client := (fun w => (redis_client w, w)) in
  if client then
    let* r := Redis.del env (sms_key phone_number) in
    match r with
    | None => ret tt
    | Some e =>
        logger_error ("Ошибка удаления из Redis: " +:+ e) ;;
        set_redis_client false ;;
        _delete_sms_code_fallback phone_number
    end
  else _delete_sms_code_fallback phone_number.

End SMSStorage.

(** ** schemas.py: PhoneAuth and SMSCode *)

Module PhoneAuth.

Definition is_digit (c : ascii) : bool :=
  let n := nat_of_ascii c in (48 <=? n)%nat && (n <=? 57)%nat.

(** [re.sub(r'\D', '', v)] on ASCII text, where the decimal digits are the
    characters 0 to 9. (On other text [\D] also keeps the decimal digits
    of other scripts, which are not modelled.) *)
Fixpoint remove_non_digits (v : string) : string :=
  match v with
  | EmptyString => EmptyString
  | String c rest =>
      if is_digit c then String c (remove_non_digits rest)
      else remove_non_digits rest
  end.

(** [s[a:b]] for [0 <= a <= b]. *)
Definition slice (a b : nat) (s : string) : string := substring a (b - a) s.

(** The validator: [Some] the normalized number, [None] for [ValueError]. *)
Definition validate_phone (v : string) : option string :=
  let cleaned := remove_non_digits v in
  if (String.length cleaned =? 11)%nat && String.prefix "7" cleaned then
    Some ("+7 " +:+ slice 1 4 cleaned +:+ " " +:+ slice 4 7 cleaned +:+ "-"
          +:+ slice 7 9 cleaned +:+ "-" +:+ slice 9 11 cleaned)
  else if (String.length cleaned =? 10)%nat && String.prefix "9" cleaned then
    Some ("+7 " +:+ slice 0 3 cleaned +:+ " " +:+ slice 3 6 cleaned +:+ "-"
          +:+ slice 6 8 cleaned +:+ "-" +:+ slice 8 10 cleaned)
  else None.

End PhoneAuth.

(** [SMSCode] has no validator: both fields reach the handler as sent. *)
Record SMSCode := { sms_phone_number : string; sms_code : string }.

(** ** auth.py *)

Module AuthLib.

Definition ACCESS_TOKEN_EXPIRE_MINUTES : Z := 30.

(** The claims signed into the token; the signature itself is opaque. *)
Record Claims := { sub : string; exp : Z }.

(** [create_access_token] with [expires_delta] in seconds; [utcnow] is the
    reading of [datetime.utcnow()]. [if expires_delta:] is false for [None]
    and for a delta of zero. *)
Definition create_access_token (utcnow : Z) (sub : string)
    (expires_delta : option Z) : Claims :=
  match expires_delta with
  | Some d => if d =? 0 then {| sub := sub; exp := utcnow + 15 * 60 |}
              else {| sub := sub; exp := utcnow + d |}
  | None => {| sub := sub; exp := utcnow + 15 * 60 |}
  end.

(** [generate_sms_code]: [randbelow k] is the [k]-th value drawn from
    [secrets.randbelow(10)], which lies in [0, 10). *)
Definition generate_sms_code (randbelow : nat -> nat) (length : nat) : string :=
  foldr (fun k acc => pretty (Z.of_nat (randbelow k mod 10)) +:+ acc) ""
        (seq 0 length).

(** How a call of [send_sms] ends: the first [print] returns; the first
    [print] raises [e] and the one in the handler returns; both raise, and
    the second exception leaves the function. *)
Inductive SmsOutcome :=
| Printed
| PrintFailed (e : string)
| PrintRaised (e e' : string).

Definition send_sms (o : SmsOutcome) (phone_number code : string)
    : St (string + bool) :=
  match o with
  | Printed =>
      print ("SMS sent to " +:+ phone_number +:+ ": Your code is " +:+ code) ;;
      ret (inr true)
  | PrintFailed e =>
      print ("SMS sending failed: " +:+ e) ;; ret (inr false)
  | PrintRaised _ e' => ret (inl e')
  end.

End AuthLib.
Export AuthLib.

(** ** routers/auth.py: the two routes *)

Module AuthRouter.

Import SMSStorage.

Record SendSmsResponse := {
  resp_message : string;
  resp_phone_number : string;
  resp_code : string }.

Record Token := { access_token : Claims; token_type : string }.

Definition http (c : Z) (d : string) : HTTPException :=
  {| status_code := c; detail := d |}.

Definition StoreFailed : HTTPException :=
  http HTTP_500_INTERNAL_SERVER_ERROR "Ошибка сохранения кода".
Definition SmsFailed : HTTPException :=
  http HTTP_500_INTERNAL_SERVER_ERROR "Ошибка отправки SMS".
Definition CodeNotFound : HTTPException :=
  http HTTP_400_BAD_REQUEST "Код не найден или истек. Запросите новый код.".
Definition CodeMismatch : HTTPException :=
  http HTTP_400_BAD_REQUEST "Неверный код подтверждения".
Definition AccountDisabled : HTTPException :=
  http HTTP_400_BAD_REQUEST "Аккаунт заблокирован".
(** FastAPI's answer when a validator of the request body raises. *)
Definition ValidationError : HTTPException :=
  http 422 "Неверный формат российского номера телефона".

(** The default [ttl] of [set_sms_code]. *)
Definition default_ttl : Z := 300.

(** [send_sms_code]: [phone_number] is the field of the validated
    [PhoneAuth]; [randbelow] feeds the generator, [env_set] and [env_del]
    are the surroundings of the two storage calls, [o] the fate of
    [send_sms]. *)
Definition send_sms_code (randbelow : nat -> nat) (env_set : Env)
    (o : SmsOutcome) (env_del : Env) (phone_number : string)
    : St (result SendSmsResponse) :=
  logger_info ("Получен запрос на отправку SMS для: " +:+ phone_number) ;;
  let code := generate_sms_code randbelow 4 in
  logger_info ("Сгенерирован код: " +:+ code +:+ " для номера: " +:+ phone_number) ;;
  let* stored := set_sms_code env_set phone_number code default_ttl in
  if negb stored then ret (Raise StoreFailed)
  else
    logger_info ("Попытка отправки SMS на " +:+ phone_number) ;;
    let* r := send_sms o phone_number code in
    let* sms_result :=
      match r with
      | inr b => ret b
      | inl e => logger_error ("Исключение при отправке SMS: " +:+ e) ;; ret false
      end in
    if sms_result then
      logger_info ("SMS успешно отправлено на " +:+ phone_number) ;;
      ret (Ok {| resp_message := "SMS код отправлен";
                 resp_phone_number := phone_number;
                 resp_code := code |})
    else
      logger_error ("Ошибка отправки SMS на " +:+ phone_number) ;;
      delete_sms_code env_del phone_number ;;
      ret (Raise SmsFailed).

(** [f"{stored_code}"] *)
Definition str_opt (s : option string) : string :=
  match s with Some v => v | None => "None" end.

(** [if not stored_code]: [None] and the empty string are falsy. *)
Definition falsy (s : option string) : bool :=
  match s with Some v => (v =? "")%string | None => true end.

Definition find_user (d : Db) (phone : string) : option User :=
  List.find (fun u => (Models.phone_number u =? phone)%string) (users d).

(** [INSERT INTO users (phone_number, role, is_active)
     VALUES (:phone, 'CLIENT', true) RETURNING id], then [db.commit()]. *)
Definition insert_user (phone : string) : St Z := fun w =>
  let d := db w in
  let u := {| user_id := next_user_id d; phone_number := phone;
              role := "CLIENT"; is_active := true |} in
  let (_, w') := set_db {| users := users d ++ [u]; pvz := pvz d;
                           orders := orders d;
                           next_order_id := next_order_id d;
                           next_user_id := next_user_id d + 1 |} w in
  (user_id u, w').

(** [verify_sms_code]: [env_get] and [env_del] are the surroundings of the
    two storage calls, [utcnow] the clock read for the token. *)
Definition verify_sms_code (env_get env_del : Env) (utcnow : Z)
    (body : SMSCode) : St (result Token) :=
  let phone := sms_phone_number body in
  logger_info ("Попытка верификации кода для: " +:+ phone) ;;
  let* stored_code := get_sms_code env_get phone in
  logger_info ("Получен код: " +:+ str_opt stored_code +:+ " для номера: " +:+ phone) ;;
  if falsy stored_code then
    logger_warning ("Код не найден для номера: " +:+ phone) ;;
    ret (Raise CodeNotFound)
  else
    delete_sms_code env_del phone ;;
    if negb (str_opt stored_code =? sms_code body)%string then
      logger_warning ("Неверный код для " +:+ phone +:+ ". Ожидался: "
                      +:+ str_opt stored_code +:+ ", получен: " +:+ sms_code body) ;;
      ret (Raise CodeMismatch)
    else
      logger_info ("Код верный для " +:+ phone) ;;
      let* user_data := (fun w => (find_user (db w) phone, w)) in
      let* blocked :=
        match user_data with
        | Some u =>
            if negb (is_active u) then
              logger_warning ("Попытка входа заблокированного пользователя: " +:+ phone) ;;
              ret true
            else ret false
        | None =>
            logger_info ("Создание нового пользователя: " +:+ phone) ;;
            let* user_id := insert_user phone in
            logger_info ("Создан пользователь с ID: " +:+ pretty user_id
                         +:+ " и ролью: CLIENT") ;;
            ret false
        end in
      if blocked then ret (Raise AccountDisabled)
      else
        let access_token :=
          create_access_token utcnow phone (Some (ACCESS_TOKEN_EXPIRE_MINUTES * 60)) in
        logger_info ("Успешная аутентификация для: " +:+ phone) ;;
        ret (Ok {| access_token := access_token; token_type := "bearer" |}).

(** The two operations as a caller reaches them: the request body passes
    its schema first. [PhoneAuth] rewrites the number, [SMSCode] does not. *)
Definition RequestCode (randbelow : nat -> nat) (env_set : Env)
    (o : SmsOutcome) (env_del : Env) (phone_number : string)
    : St (result SendSmsResponse) :=
  match PhoneAuth.validate_phone phone_number with
  | Some p => send_sms_code randbelow env_set o env_del p
  | None => ret (Raise ValidationError)
  end.

Definition VerifyCode (env_get env_del : Env) (utcnow : Z)
    (phone_number code : string) : St (result Token) :=
  verify_sms_code env_get env_del utcnow
    {| sms_phone_number := phone_number; sms_code := code |}.

(** The process right after start: [SMSStorage()] has pinged Redis
    ([ping] is [None] when that worked, [Some e] when it raised [e]); the
    server may already hold keys; the fallback dictionary is empty and its
    sweep time is the start time. *)
Definition start (ping : option string) (keys : gmap string Entry) (t0 : Z)
    (d : Db) : World :=
  {| redis_client := bool_decide (ping = None);
     redis_keys := keys; dev_sms_storage := ∅;
     dev_storage_cleanup_time := t0;
     log := [match ping with
             | None => {| level := INFO; message := "Redis подключен успешно" |}
             | Some e =>
                 {| level := WARNING;
                    message := "Redis не доступен: " +:+ e
                               +:+ ". Используется in-memory хранилище" |}
             end];
     stdout := []; db := d |}.

End AuthRouter.

(** ** The lifecycle graph and the authorization matrix of the design *)

Module Lifecycle.




End Lifecycle.

(** ** Sample data *)

Module Sample.

Definition client7 : User :=
  {| user_id := 7; phone_number := "+7 999 123-45-67"; role := "client"; is_active := true |}.
Definition pvz_operator : User :=
  {| user_id := 20; phone_number := "+7 999 000-00-20"; role := "pvz"; is_active := true |}.
Definition fresh_actor : User :=
  {| user_id := 9; phone_number := "+7 999 000-00-09"; role := "CLIENT"; is_active := true |}.
Definition admin1 : User :=
  {| user_id := 1; phone_number := "+7 999 000-00-01"; role := "admin"; is_active := true |}.

Definition order_with (s : OrderStatus) : Order :=
  {| id := 1; order_number := "ORD-20240101-0A1B2C3D"; client_id := 7;
     service_id := None; receive_pvz_id := 1; delivery_pvz_id := 2;
     category := TECH; subcategory := "phone"; description := "screen";
     price_limit := None; proposed_price := None; final_price := None;
     payment_method := CASH; status := Some s; price_justification := None;
     created_at := 100; updated_at := None; received_at := None;
     delivered_at := None |}.

Definition other_order : Order :=
  {| id := 2; order_number := "ORD-20240102-FFFFFFFF"; client_id := 8;
     service_id := Some 30; receive_pvz_id := 2; delivery_pvz_id := 2;
     category := SHOES; subcategory := "boots"; description := "heel";
     price_limit := None; proposed_price := None; final_price := None;
     payment_method := ONLINE; status := Some IN_WORK; price_justification := None;
     created_at := 200; updated_at := None; received_at := None;
     delivered_at := None |}.

Definition pvz_rows (active : bool) : list PVZ :=
  [ {| pvz_id := 1; pvz_user_id := 20; pvz_is_active := active;
       pvz_updated_at := None |};
    {| pvz_id := 2; pvz_user_id := 21; pvz_is_active := active;
       pvz_updated_at := None |} ].

Definition db_with (s : OrderStatus) : Db :=
  {| users := [admin1; client7; fresh_actor; pvz_operator]; pvz := pvz_rows true;
     orders := [order_with s; other_order]; next_order_id := 3; next_user_id := 22 |}.



(** Surroundings of a storage call at time [t]: Redis answering, Redis
    failing. *)
Definition env_ok (t : Z) : Env :=
  {| redis_reply := None; redis_time := t; clock := fun _ => t |}.
Definition env_err (t : Z) : Env :=
  {| redis_reply := Some "Connection refused"; redis_time := t; clock := fun _ => t |}.

Definition db_empty : Db :=
  {| users := []; pvz := []; orders := []; next_order_id := 1; next_user_id := 1 |}.

(** The process started at time 1000, with Redis reachable and without. *)
Definition world_up : World := AuthRouter.start None ∅ 1000 db_empty.
Definition world_down : World :=
  AuthRouter.start (Some "Connection refused") ∅ 1000 db_empty.

(** Draws 1, 2, 3, 4: the code is 1234. *)
Definition draws (k : nat) : nat := S k.

Definition normalized : string := "+7 999 123-45-67".

(** The state after a successful request for 9991234567 at time 1010. *)
Definition requested (w : World) : World :=
  snd (AuthRouter.RequestCode draws (env_ok 1010) Printed (env_ok 1010) "9991234567" w).

End Sample.

(** ** Predicates on the process state *)

Module Invariants.

(** As long as the Redis client is in use the fallback dictionary has
    never been written. *)
Definition fallback_unused (w : World) : Prop :=
  redis_client w = true -> dev_sms_storage w = ∅.

(** No code is held for [phone] in a tier the process can still read. *)
Definition absent (w : World) (phone : string) : Prop :=
  dev_sms_storage w !! phone = None
  /\ (redis_client w = true -> redis_keys w !! SMSStorage.sms_key phone = None).

(** Whatever is held for [phone] is past its time for a read made in the
    surroundings [env]. *)
Definition unreadable (w : World) (phone : string) (env : Env) : Prop :=
  (forall e, dev_sms_storage w !! phone = Some e -> forall k, expires e <= clock env k)
  /\ (redis_client w = true ->
      forall e, redis_keys w !! SMSStorage.sms_key phone = Some e ->
                expires e <= redis_time env).

Definition logged (r : LogRecord) (w : World) : Prop := In r (log w).

(** [w'] differs from [w] at most by more log lines, more output and
    other tables: the code store is the same. *)
Definition extends (w w' : World) : Prop :=
  redis_client w' = redis_client w
  /\ redis_keys w' = redis_keys w
  /\ dev_sms_storage w' = dev_sms_storage w
  /\ dev_storage_cleanup_time w' = dev_storage_cleanup_time w
  /\ (forall r, logged r w -> logged r w').

(** [needle in hay] on strings. *)
Fixpoint contains (needle hay : string) : bool :=
  String.prefix needle hay
  || match hay with
     | EmptyString => false
     | String _ rest => contains needle rest
     end.

Fixpoint all_chars (p : ascii -> bool) (s : string) : bool :=
  match s with
  | EmptyString => true
  | String c rest => p c && all_chars p rest
  end.

(** A non-empty string of decimal digits. *)
Definition digits (s : string) : bool :=
  negb (s =? "")%string && all_chars PhoneAuth.is_digit s.

(** The token handed out for [phone] at time [utcnow]. *)
Definition token_for (utcnow : Z) (phone : string) : AuthRouter.Token :=
  {| AuthRouter.access_token := {| sub := phone; exp := utcnow + 30 * 60 |};
     AuthRouter.token_type := "bearer" |}.

(** The line [send_sms_code] writes after drawing the code. *)
Definition generated_line (code phone : string) : LogRecord :=
  {| level := INFO;
     message := "Сгенерирован код: " +:+ code +:+ " для номера: " +:+ phone |}.

(** The line [verify_sms_code] writes after reading the store. *)
Definition fetched_line (stored : option string) (phone : string) : LogRecord :=
  {| level := INFO;
     message := "Получен код: " +:+ AuthRouter.str_opt stored
                +:+ " для номера: " +:+ phone |}.

End Invariants.
Export Invariants.

(** ** routers/orders.py: reading one order *)

Module OrderReading.

Import Orders.

(** The columns of [order_photos] the router reads. *)
Record OrderPhoto := {
  photo_order_id : Z;
  photo_type : string;
  photo_url : string }.

Definition detail_no_access : string := "Нет доступа к этому заказу".

(** The access test of [get_order]. *)
Definition has_access (current_user : PyUser) (d : Db) (order : Order)
    : Exception + bool :=
  let? client := and_also (role_is current_user "client")
                          (id_is current_user (client_id order)) in
  if client then inr true
  else
    let? service := and_also (role_is current_user "service")
                             (match service_id order with
                              | Some s => id_is current_user s
                              | None => let? _ := get_id current_user in inr false
                              end) in
    if service then inr true
    else
      let? operator := role_is current_user "pvz" in
      if operator then
        let? points := query (pvz d) in
        let? uid := get_id current_user in
        let pvz_ids := map pvz_id (List.filter (fun p => pvz_user_id p =? uid) points) in
        inr (Z_in (receive_pvz_id order) pvz_ids || Z_in (delivery_pvz_id order) pvz_ids)
      else inr false.

(** [get_order]: the order with the urls of its photos ([order_dict] with
    the key [photos] added). [photos] is the table [order_photos]. *)
Definition get_order (order_id : Z) (current_user : PyUser) (d : Db)
    (photos : list OrderPhoto) : result (Order * list string) :=
  respond (
    let? rows := query (orders d) in
    match first (fun o => id o =? order_id) rows with
    | None => inl (http HTTP_404_NOT_FOUND detail_order_not_found)
    | Some order =>
        let? allowed := has_access current_user d order in
        if negb allowed then inl (http HTTP_403_FORBIDDEN detail_no_access)
        else
          let? shots := query photos in
          inr (order, map photo_url
                        (List.filter (fun ph => photo_order_id ph =? order_id) shots))
    end).

End OrderReading.

(** ** routers/users.py and routers/pvz.py: the status switches *)

Module Switches.

Import Orders.











End Switches.

(** ** auth.py: resolving a bearer token

    [jwt.decode] of python-jose is taken with its documented behaviour: it
    raises [JWTError] for a token that is malformed or not signed with the
    key, and for a signed token whose [exp] lies before the current time;
    otherwise it returns the payload. *)

Module ActorDirectory.

(** What the server can tell about a bearer string: not a token signed
    with [SECRET_KEY], or a signed payload with its [sub] (if any) and
    [exp]. *)
Inductive Bearer :=
| Unsigned
| Signed (sub : option string) (exp : Z).

(** The bearer string [jwt.encode] makes of the claims. *)
Definition encode (c : Claims) : Bearer := Signed (Some (sub c)) (exp c).

(** [verify_token]; [now] is the clock [jwt.decode] reads. *)
Definition verify_token (now : Z) (token : Bearer) : option string :=
  match token with
  | Unsigned => None
  | Signed sub exp => if exp <? now then None else sub
  end.

Definition http (c : Z) (d : string) : HTTPException :=
  {| status_code := c; detail := d |}.

Definition InvalidToken : HTTPException := http 401 "Неверный токен".
Definition UserNotFound : HTTPException := http 401 "Пользователь не найден".
Definition InactiveUser : HTTPException := http HTTP_400_BAD_REQUEST "Неактивный пользователь".

(** [get_current_active_user]: the row of [users] for the token's phone
    number, as the dictionary of its [id], [phone_number], [role] and
    [is_active]. *)
Definition get_current_active_user (now : Z) (token : Bearer) (d : Db) : result User :=
  match verify_token now token with
  | None => Raise InvalidToken
  | Some phone =>
      match AuthRouter.find_user d phone with
      | None => Raise UserNotFound
      | Some user_data =>
          if negb (is_active user_data) then Raise InactiveUser
          else Ok user_data
      end
  end.

(** [check_phone_exists] of routers/auth.py; the answer is the value of
    the key [exists]. *)
Definition check_phone_exists (phone_number : string) (d : Db) : result bool :=
  respond (
    let? rows := query (users d) in
    inr (match List.find (fun u => (Models.phone_number u =? phone_number)%string) rows with
         | Some _ => true
         | None => false
         end)).

End ActorDirectory.

(** ** The routes: a handler behind its dependency

    [Depends(get_current_active_user)] runs first; its exception is the
    answer, its value is bound to [current_user]. [clock] is the time read
    by [jwt.decode], [now] the time of the database server. *)

Module Routes.

Import ActorDirectory.

Definition depends {A} (clock : Z) (token : Bearer) (d : Db)
    (handler : PyUser -> result A * Db) : result A * Db :=
  match get_current_active_user clock token d with
  | Raise e => (Raise e, d)
  | Ok user_dict => handler (PyDict user_dict)
  end.

(** POST /orders/ *)
Definition post_order (clock : Z) (token : Bearer) (order_number : string) (now : Z)
    (driver_text : string) (order_data : OrderCreate) (d : Db) : result Order * Db :=
  depends clock token d
    (fun current_user => Orders.create_order order_number now driver_text
                           order_data current_user d).

(** GET /orders/ *)
Definition list_orders (clock : Z) (token : Bearer) (status_filter : option OrderStatus)
    (d : Db) : result (list Order) * Db :=
  depends clock token d
    (fun current_user => (Orders.get_orders status_filter current_user d, d)).

(** GET /orders/{order_id} *)
Definition read_order (clock : Z) (token : Bearer) (order_id : Z) (d : Db)
    (photos : list OrderReading.OrderPhoto) : result (Order * list string) * Db :=
  depends clock token d
    (fun current_user => (OrderReading.get_order order_id current_user d photos, d)).

(** PUT /orders/{order_id} *)
Definition put_order (clock : Z) (token : Bearer) (now : Z) (order_id : Z)
    (order_update : OrderUpdate) (d : Db) : result Order * Db :=
  depends clock token d
    (fun current_user => Orders.update_order now order_id order_update current_user d).





End Routes.

(** ** Shapes of strings and of errors *)

Module Tables.

(** The shape of every accepted phone number: "+7 ddd ddd-dd-dd". *)
Definition formatted (d1 d2 d3 d4 d5 d6 d7 d8 d9 d10 : ascii) : string :=
  String "+" (String "7" (String " " (String d1 (String d2 (String d3
  (String " " (String d4 (String d5 (String d6 (String "-" (String d7
  (String d8 (String "-" (String d9 (String d10 "")))))))))))))))%char.

(** The ten digits as one string. *)
Definition ten (d1 d2 d3 d4 d5 d6 d7 d8 d9 d10 : ascii) : string :=
  String d1 (String d2 (String d3 (String d4 (String d5 (String d6
  (String d7 (String d8 (String d9 (String d10 ""))))))))).

(** The bearer string of the token issued at [utcnow] for the phone number
    of a user. *)
Definition token_of (utcnow : Z) (u : User) : ActorDirectory.Bearer :=
  ActorDirectory.encode
    (create_access_token utcnow (phone_number u)
       (Some (ACCESS_TOKEN_EXPIRE_MINUTES * 60))).

(** Text made of ASCII characters only. On such text the bytes of the
    string are its characters, and the decimal digits of [\D] are the ten
    characters 0 to 9. *)
Definition ascii_only (s : string) : bool :=
  all_chars (fun c => (nat_of_ascii c <? 128)%nat) s.




End Tables.

(** * Properties of the order router *)

Module OrderFacts.

Import Orders Sample Tables.

(** *** The mappers of models.py *)

(** The relationships of [models.py] do not configure: [User.reviews]
    gives no [foreign_keys], and [reviews.client_id] and
    [reviews.service_id] both reference [users]. *)
Lemma configure_mappers_fails :
  Mappers.join_paths (Mappers.rel "User" "users" "reviews" "reviews" false)
  = [Mappers.fk "reviews" "client_id" "users"; Mappers.fk "reviews" "service_id" "users"]
  /\ Mappers.configure_mappers
     = Some ("Could not determine join condition between parent/child tables on "
             +:+ "relationship User.reviews - there are multiple foreign key paths "
             +:+ "linking the tables.").
Proof. split; vm_compute; reflexivity. Qed.

Lemma query_raises {A} (rows : list A) :
  exists text, query rows = inl (MapperError text).
Proof.
  unfold query. rewrite (proj2 configure_mappers_fails). eexists. reflexivity.
Qed.

(** *** The handlers on every input *)

Lemma update_order_refuses (now order_id : Z) (order_update : OrderUpdate)
    (current_user : PyUser) (d : Db) :
  update_order now order_id order_update current_user d
  = (Raise INTERNAL_SERVER_ERROR, d).
Proof.
  unfold update_order. destruct (query_raises (orders d)) as [text ->]. reflexivity.
Qed.

Lemma get_orders_refuses (status_filter : option OrderStatus)
    (current_user : PyUser) (d : Db) :
  get_orders status_filter current_user d = Raise INTERNAL_SERVER_ERROR.
Proof.
  unfold get_orders. destruct (query_raises (orders d)) as [text ->]. reflexivity.
Qed.

Lemma create_order_on_dict (number : string) (now : Z) (driver_text : string)
    (order_data : OrderCreate) (row : User) (d : Db) :
  create_order number now driver_text order_data (PyDict row) d
  = (Raise {| status_code := 500;
              detail := "Ошибка при создании заказа: 'dict' object has no attribute 'role'" |},
     d).
Proof. reflexivity. Qed.












(** C10, the failing request: the actor created by a first verification
    has role "CLIENT"; holding a valid token, it lists the orders. Two
    orders are stored and no filter applies to that role, but the handler
    raises at [db.query(Order)], before it looks at the role: the answer is
    500 "Internal Server Error". The same happens to an admin. *)
Lemma get_orders_fails_before_filtering :
  role fresh_actor = "CLIENT"
  /\ length (List.filter (status_matches None) (orders (db_with CREATED))) = 2%nat
  /\ ActorDirectory.get_current_active_user 1100 (token_of 1000 fresh_actor) (db_with CREATED)
     = Ok fresh_actor
  /\ Routes.list_orders 1100 (token_of 1000 fresh_actor) None (db_with CREATED)
     = (Raise INTERNAL_SERVER_ERROR, db_with CREATED)
  /\ get_orders None (PyDict fresh_actor) (db_with CREATED) = Raise INTERNAL_SERVER_ERROR
  /\ get_orders None (PyDict admin1) (db_with CREATED) = Raise INTERNAL_SERVER_ERROR.
Proof. repeat split; vm_compute; reflexivity. Qed.

End OrderFacts.

(** * Properties of the code store *)

Module StoreFacts.

Import SMSStorage.

Lemma bind_run {A B} (c : St A) (k : A -> St B) (w : World) :
  bind c k w = k (fst (c w)) (snd (c w)).
Proof. unfold bind. now destruct (c w). Qed.

(** *** The sweep *)

Lemma lookup_delete_each (phones : list string) (d : gmap string Entry) (p : string) :
  delete_each phones d !! p = if decide (p ∈ phones) then None else d !! p.
Proof.
  unfold delete_each. revert d.
  induction phones as [|q phones IH]; intros d; simpl.
  - destruct (decide (p ∈ [])) as [H|]; [inversion H | reflexivity].
  - rewrite IH. destruct (decide (p ∈ phones)) as [Hin|Hnin].
    + rewrite decide_True by (apply elem_of_cons; now right). reflexivity.
    + destruct (decide (p = q)) as [->|Hne].
      * rewrite lookup_delete_eq, decide_True by (apply elem_of_cons; now left).
        reflexivity.
      * rewrite lookup_delete_ne by congruence.
        rewrite decide_False; [reflexivity|]. rewrite elem_of_cons. tauto.
Qed.

Lemma elem_of_expired_phones (t : Z) (d : gmap string Entry) (p : string) :
  p ∈ expired_phones t d <-> exists e, d !! p = Some e /\ expires e <= t.
Proof.
  unfold expired_phones. rewrite list_elem_of_In, in_map_iff. split.
  - intros ([q e] & <- & Hin). apply List.filter_In in Hin as [Hin Hexp].
    simpl in *. exists e. split; [|lia].
    now apply elem_of_map_to_list, list_elem_of_In.
  - intros (e & Hl & Hexp). exists (p, e). split; [reflexivity|].
    apply List.filter_In. split.
    + now apply list_elem_of_In, elem_of_map_to_list.
    + simpl. lia.
Qed.

(** The sweep removes exactly the entries whose time has come. *)
Lemma lookup_swept (t : Z) (d : gmap string Entry) (p : string) :
  delete_each (expired_phones t d) d !! p =
  match d !! p with
  | Some e => if expires e <=? t then None else Some e
  | None => None
  end.
Proof.
  rewrite lookup_delete_each. case_decide as H.
  - apply elem_of_expired_phones in H as (e & -> & He).
    now apply Z.leb_le in He as ->.
  - destruct (d !! p) as [e|] eqn:E; [|reflexivity].
    destruct (expires e <=? t) eqn:Ele; [|reflexivity].
    exfalso. apply H, elem_of_expired_phones. exists e. split; [assumption|lia].
Qed.

(** *** Steps that leave the code store alone *)

Lemma extends_refl (w : World) : extends w w.
Proof. unfold extends. auto. Qed.

Lemma extends_trans (w1 w2 w3 : World) :
  extends w1 w2 -> extends w2 w3 -> extends w1 w3.
Proof.
  unfold extends. intros (a1 & b1 & c1 & d1 & e1) (a2 & b2 & c2 & d2 & e2).
  repeat split; try congruence. auto.
Qed.

Lemma emit_extends (l : Level) (m : string) (w : World) : extends w (snd (emit l m w)).
Proof.
  unfold extends, logged. simpl. repeat split; try reflexivity.
  intros r H. apply in_or_app. now left.
Qed.

Lemma emit_logged (l : Level) (m : string) (w : World) :
  logged {| level := l; message := m |} (snd (emit l m w)).
Proof. unfold logged. simpl. apply in_or_app. right. now left. Qed.

Lemma print_extends (line : string) (w : World) : extends w (snd (print line w)).
Proof. unfold extends, logged. simpl. auto. Qed.

Lemma set_db_extends (d : Db) (w : World) : extends w (snd (set_db d w)).
Proof. unfold extends, logged. simpl. auto. Qed.

Lemma fallback_unused_extends (w w' : World) :
  extends w w' -> fallback_unused w -> fallback_unused w'.
Proof. unfold fallback_unused. intros (-> & _ & -> & _) H. exact H. Qed.

Lemma absent_extends (w w' : World) (p : string) :
  extends w w' -> absent w p -> absent w' p.
Proof. unfold absent. intros (-> & -> & -> & _) H. exact H. Qed.

Lemma unreadable_extends (w w' : World) (p : string) (env : Env) :
  extends w w' -> unreadable w p env -> unreadable w' p env.
Proof. unfold unreadable. intros (-> & -> & -> & _) H. exact H. Qed.

Lemma logged_extends (w w' : World) (r : LogRecord) :
  extends w w' -> logged r w -> logged r w'.
Proof. intros (_ & _ & _ & _ & H). apply H. Qed.

Lemma absent_unreadable (w : World) (p : string) (env : Env) :
  absent w p -> unreadable w p env.
Proof.
  intros [Hd Hr]. split.
  - intros e He. congruence.
  - intros Hc e He. rewrite (Hr Hc) in He. discriminate.
Qed.

(** *** The three storage methods *)

Ltac unfold_store :=
  unfold set_sms_code, _set_sms_code_fallback, get_sms_code,
    _get_sms_code_fallback, _cleanup_expired_codes, delete_sms_code,
    _delete_sms_code_fallback, Redis.setex, Redis.get, Redis.del,
    logger_info, logger_warning, logger_error, bind, ret.

Ltac split_store w env :=
  destruct (redis_client w) eqn:?; destruct (redis_reply env) eqn:?; simpl.

Lemma set_sms_code_true (env : Env) (p c : string) (ttl : Z) (w : World) :
  fst (set_sms_code env p c ttl w) = true.
Proof.
  unfold_store. split_store w env; try reflexivity.
  destruct (ttl <=? 0); reflexivity.
Qed.

(** Where [set_sms_code] puts the code when the primary tier is out. *)
Lemma set_sms_code_fallback (env : Env) (p c : string) (ttl : Z) (w : World) :
  redis_client w = false \/ is_Some (redis_reply env) ->
  let w' := snd (set_sms_code env p c ttl w) in
  redis_client w' = false
  /\ redis_keys w' = redis_keys w
  /\ dev_sms_storage w'
     = <[p := {| code := c; expires := clock env 0 + ttl |}]> (dev_sms_storage w).
Proof.
  intros H. unfold_store. split_store w env; auto.
  destruct H as [H|[e H]]; discriminate.
Qed.

(** Where it puts the code when Redis answers. *)
Lemma set_sms_code_primary (env : Env) (p c : string) (ttl : Z) (w : World) :
  redis_client w = true -> redis_reply env = None -> 0 < ttl ->
  let w' := snd (set_sms_code env p c ttl w) in
  redis_client w' = true
  /\ redis_keys w'
     = <[sms_key p := {| code := c; expires := redis_time env + ttl |}]> (redis_keys w)
  /\ dev_sms_storage w' = dev_sms_storage w.
Proof.
  intros Hc Hr Httl. unfold_store. rewrite Hc, Hr.
  destruct (ttl <=? 0) eqn:E; [lia|]. simpl. auto.
Qed.

Lemma set_sms_code_wf (env : Env) (p c : string) (ttl : Z) (w : World) :
  fallback_unused w -> fallback_unused (snd (set_sms_code env p c ttl w)).
Proof.
  unfold fallback_unused. unfold_store.
  split_store w env; try destruct (ttl <=? 0); simpl; intros; auto; congruence.
Qed.

Lemma set_sms_code_logged (env : Env) (p c : string) (ttl : Z) (w : World) (r : LogRecord) :
  logged r w -> logged r (snd (set_sms_code env p c ttl w)).
Proof.
  unfold logged. unfold_store. split_store w env; auto;
    try destruct (ttl <=? 0); simpl; rewrite ?in_app_iff; auto.
Qed.

(** A code stored now cannot be read once its time is over. *)
Lemma set_sms_code_unreadable (env_set env_get : Env) (p c : string) (ttl : Z) (w : World) :
  fallback_unused w ->
  redis_time env_set + ttl <= redis_time env_get ->
  (forall k, clock env_set 0 + ttl <= clock env_get k) ->
  unreadable (snd (set_sms_code env_set p c ttl w)) p env_get.
Proof.
  intros Hwf Hr Hk. unfold unreadable.
  destruct (redis_client w) eqn:Hc; [destruct (redis_reply env_set) eqn:Hrep|].
  1, 3: destruct (set_sms_code_fallback env_set p c ttl w) as (-> & _ & ->);
    [ first [now right | now left] | ];
    (split; [|discriminate]); intros e;
    rewrite lookup_insert_eq; intros [= <-]; simpl; apply Hk.
  unfold_store. rewrite Hc, Hrep. destruct (ttl <=? 0) eqn:E; simpl.
  - split; [|discriminate]. intros e. rewrite lookup_insert_eq. intros [= <-]. apply Hk.
  - rewrite (Hwf Hc). split; [intros e; now rewrite lookup_empty|].
    intros _ e. rewrite lookup_insert_eq. intros [= <-]. exact Hr.
Qed.

(** What one sweep does to the state. *)
Lemma cleanup_run (t : Z) (w : World) :
  let w' := snd (_cleanup_expired_codes t w) in
  dev_sms_storage w' = delete_each (expired_phones t (dev_sms_storage w)) (dev_sms_storage w)
  /\ redis_client w' = redis_client w
  /\ redis_keys w' = redis_keys w
  /\ (forall r, logged r w -> logged r w')
  /\ db w' = db w.
Proof.
  unfold_store. unfold logged.
  destruct (expired_phones t (dev_sms_storage w)); simpl; repeat split; auto.
  intros r H. apply in_or_app. now left.
Qed.

(** The fallback read on its own: the dictionary it reads, after the
    sweep if one is due, and the clock reading it compares with. *)
Lemma fallback_get_run (env : Env) (p : string) (w : World) :
  let sweep := 300 <? clock env 0 - dev_storage_cleanup_time w in
  let d := if sweep
           then delete_each (expired_phones (clock env 1) (dev_sms_storage w))
                            (dev_sms_storage w)
           else dev_sms_storage w in
  let read := if sweep then clock env 3 else clock env 1 in
  let w' := snd (_get_sms_code_fallback env p w) in
  fst (_get_sms_code_fallback env p w)
  = match d !! p with
    | Some e => if read <? expires e then Some (code e) else None
    | None => None
    end
  /\ redis_client w' = redis_client w
  /\ redis_keys w' = redis_keys w
  /\ (forall r, logged r w -> logged r w')
  /\ db w' = db w.
Proof.
  pose proof (cleanup_run (clock env 1) w) as Hrun. cbv zeta in Hrun.
  unfold _get_sms_code_fallback, bind, ret.
  destruct (300 <? clock env 0 - dev_storage_cleanup_time w).
  - destruct (_cleanup_expired_codes (clock env 1) w) as [u w1].
    simpl in Hrun |- *. destruct Hrun as (Hd & Hc & Hk & Hl & Hdb). rewrite <- Hd.
    destruct (dev_sms_storage w1 !! p) as [e|]; [|simpl; auto].
    destruct (clock env 3 <? expires e); simpl; auto.
  - simpl. destruct (dev_sms_storage w !! p) as [e|]; [|simpl; auto].
    destruct (clock env 1 <? expires e); simpl; auto.
Qed.

Lemma fallback_get_expired (env : Env) (p : string) (w : World) :
  (forall e, dev_sms_storage w !! p = Some e -> forall k, expires e <= clock env k) ->
  fst (_get_sms_code_fallback env p w) = None.
Proof.
  intros H. rewrite (proj1 (fallback_get_run env p w)).
  destruct (300 <? clock env 0 - dev_storage_cleanup_time w).
  - rewrite lookup_swept.
    destruct (dev_sms_storage w !! p) as [e|]; [|reflexivity].
    destruct (expires e <=? clock env 1); [reflexivity|].
    specialize (H e eq_refl 3%nat).
    destruct (clock env 3 <? expires e) eqn:E'; [lia | reflexivity].
  - destruct (dev_sms_storage w !! p) as [e|]; [|reflexivity].
    specialize (H e eq_refl 1%nat).
    destruct (clock env 1 <? expires e) eqn:E'; [lia | reflexivity].
Qed.

Lemma fallback_get_live (env : Env) (p : string) (w : World) (e : Entry) :
  dev_sms_storage w !! p = Some e ->
  (forall k, clock env k < expires e) ->
  fst (_get_sms_code_fallback env p w) = Some (code e).
Proof.
  intros Hl H. rewrite (proj1 (fallback_get_run env p w)).
  pose proof (H 1%nat). pose proof (H 3%nat).
  destruct (300 <? clock env 0 - dev_storage_cleanup_time w).
  - rewrite lookup_swept, Hl.
    destruct (expires e <=? clock env 1) eqn:E1; [lia|].
    destruct (clock env 3 <? expires e) eqn:E3; [reflexivity | lia].
  - rewrite Hl. destruct (clock env 1 <? expires e) eqn:E1; [reflexivity | lia].
Qed.

(** The fallback read never touches the Redis side of the state. *)
Lemma fallback_get_redis (env : Env) (p : string) (w : World) :
  redis_client (snd (_get_sms_code_fallback env p w)) = redis_client w
  /\ redis_keys (snd (_get_sms_code_fallback env p w)) = redis_keys w.
Proof. destruct (fallback_get_run env p w) as (_ & H1 & H2 & _). auto. Qed.

Lemma fallback_get_logged (env : Env) (p : string) (w : World) (r : LogRecord) :
  logged r w -> logged r (snd (_get_sms_code_fallback env p w)).
Proof. destruct (fallback_get_run env p w) as (_ & _ & _ & H & _). apply H. Qed.

Lemma get_sms_code_unreadable (env : Env) (p : string) (w : World) :
  unreadable w p env -> fst (get_sms_code env p w) = None.
Proof.
  intros [Hd Hr]. unfold get_sms_code, bind, Redis.get, logger_error, ret.
  destruct (redis_client w) eqn:Hc; [|now apply fallback_get_expired].
  destruct (redis_reply env) eqn:Hrep; simpl.
  - now apply fallback_get_expired.
  - destruct (redis_keys w !! sms_key p) as [e|] eqn:E; [|reflexivity].
    specialize (Hr eq_refl e eq_refl).
    destruct (redis_time env <? expires e) eqn:E'; [lia | reflexivity].
Qed.

Lemma get_sms_code_wf (env : Env) (p : string) (w : World) :
  fallback_unused w -> fallback_unused (snd (get_sms_code env p w)).
Proof.
  unfold fallback_unused, get_sms_code, bind, Redis.get, logger_error, ret.
  destruct (redis_client w) eqn:Hc.
  - destruct (redis_reply env) eqn:Hrep; simpl.
    + intros _ H. now rewrite (proj1 (fallback_get_redis env p _)) in H.
    + destruct (redis_keys w !! sms_key p) as [e|]; [|now auto].
      destruct (redis_time env <? expires e); now auto.
  - intros _ H. rewrite (proj1 (fallback_get_redis env p w)) in H. congruence.
Qed.

Lemma get_sms_code_logged (env : Env) (p : string) (w : World) (r : LogRecord) :
  logged r w -> logged r (snd (get_sms_code env p w)).
Proof.
  intros H. unfold get_sms_code, bind, Redis.get, logger_error, ret.
  destruct (redis_client w) eqn:Hc; [|now apply fallback_get_logged].
  destruct (redis_reply env) eqn:Hrep; simpl.
  - apply fallback_get_logged. unfold logged in *. simpl. apply in_or_app. now left.
  - destruct (redis_keys w !! sms_key p) as [e|]; [|assumption].
    now destruct (redis_time env <? expires e).
Qed.

Lemma delete_sms_code_absent (env : Env) (p : string) (w : World) :
  fallback_unused w -> absent (snd (delete_sms_code env p w)) p.
Proof.
  unfold fallback_unused, absent. unfold_store. intros Hwf.
  split_store w env.
  - split; [apply lookup_delete_eq | discriminate].
  - rewrite (Hwf eq_refl). split; [apply lookup_empty | intros _; apply lookup_delete_eq].
  - split; [apply lookup_delete_eq | congruence].
  - split; [apply lookup_delete_eq | congruence].
Qed.

Lemma delete_sms_code_wf (env : Env) (p : string) (w : World) :
  fallback_unused w -> fallback_unused (snd (delete_sms_code env p w)).
Proof.
  unfold fallback_unused. unfold_store. split_store w env; intros; auto; congruence.
Qed.

Lemma delete_sms_code_logged (env : Env) (p : string) (w : World) (r : LogRecord) :
  logged r w -> logged r (snd (delete_sms_code env p w)).
Proof.
  unfold logged. unfold_store. split_store w env; rewrite ?in_app_iff; auto.
Qed.

(** Once the client is gone every method works on the dictionary alone:
    the client stays gone and the Redis keys are not touched. *)
Lemma client_stays_down (env : Env) (p c : string) (ttl : Z) (w : World) :
  redis_client w = false ->
  (redis_client (snd (set_sms_code env p c ttl w)) = false
   /\ redis_keys (snd (set_sms_code env p c ttl w)) = redis_keys w)
  /\ (redis_client (snd (get_sms_code env p w)) = false
      /\ redis_keys (snd (get_sms_code env p w)) = redis_keys w
      /\ get_sms_code env p w = _get_sms_code_fallback env p w)
  /\ (redis_client (snd (delete_sms_code env p w)) = false
      /\ redis_keys (snd (delete_sms_code env p w)) = redis_keys w).
Proof.
  intros Hc. split; [|split].
  - destruct (set_sms_code_fallback env p c ttl w) as (? & ? & _); auto.
  - assert (E : get_sms_code env p w = _get_sms_code_fallback env p w).
    { unfold get_sms_code, bind. simpl. now rewrite Hc. }
    rewrite E. destruct (fallback_get_redis env p w) as [-> ->]. auto.
  - unfold_store. rewrite Hc. simpl. auto.
Qed.

(** The first Redis error switches the client off. *)
Lemma redis_error_marks_down (env : Env) (p c e : string) (ttl : Z) (w : World) :
  redis_client w = true -> redis_reply env = Some e ->
  redis_client (snd (set_sms_code env p c ttl w)) = false
  /\ redis_client (snd (get_sms_code env p w)) = false
  /\ redis_client (snd (delete_sms_code env p w)) = false.
Proof.
  intros Hc He. split; [|split].
  - destruct (set_sms_code_fallback env p c ttl w) as (? & _); eauto.
  - unfold get_sms_code, bind, Redis.get, logger_error, ret. rewrite Hc, He. simpl.
    now rewrite (proj1 (fallback_get_redis env p _)).
  - unfold_store. now rewrite Hc, He.
Qed.

(** A read through the client that Redis answers. *)
Lemma get_sms_code_primary (env : Env) (p : string) (w : World) (e : Entry) :
  redis_client w = true -> redis_reply env = None ->
  redis_keys w !! sms_key p = Some e -> redis_time env < expires e ->
  fst (get_sms_code env p w) = Some (code e).
Proof.
  intros Hc Hr Hk Ht. unfold get_sms_code, bind, Redis.get, ret.
  rewrite Hc, Hr, Hk. destruct (redis_time env <? expires e) eqn:E; [reflexivity | lia].
Qed.

(** *** The tables are out of reach of the storage class *)

Lemma storage_keeps_db (env : Env) (p c : string) (ttl : Z) (w : World) :
  db (snd (set_sms_code env p c ttl w)) = db w
  /\ db (snd (get_sms_code env p w)) = db w
  /\ db (snd (delete_sms_code env p w)) = db w.
Proof.
  split; [|split].
  - unfold_store. split_store w env; try destruct (ttl <=? 0); reflexivity.
  - assert (F : forall w0, db (snd (_get_sms_code_fallback env p w0)) = db w0).
    { intros w0. now destruct (fallback_get_run env p w0) as (_ & _ & _ & _ & H). }
    unfold get_sms_code, bind, Redis.get, logger_error, ret.
    destruct (redis_client w); [|apply F].
    destruct (redis_reply env); simpl; [now rewrite F|].
    destruct (redis_keys w !! sms_key p) as [e|]; [|reflexivity].
    now destruct (redis_time env <? expires e).
  - unfold_store. split_store w env; reflexivity.
Qed.

(** C5: with the primary tier out of reach (the client already dropped,
    or the Redis command of this very call failing), a code set for a phone
    number and read back within its time comes back unchanged from the
    dictionary; the failed call leaves the client dropped, later calls use
    the dictionary only and never touch Redis; and the caller sees the same
    results, [True] and the code, as when Redis answers. *)
Theorem fallback_round_trip
    (env_set env_get : Env) (p c : string) (ttl : Z) (w : World) :
  redis_client w = false \/ is_Some (redis_reply env_set) ->
  (forall k, clock env_get k < clock env_set 0 + ttl) ->
  let w1 := snd (set_sms_code env_set p c ttl w) in
  let w2 := snd (get_sms_code env_get p w1) in
  fst (set_sms_code env_set p c ttl w) = true
  /\ fst (get_sms_code env_get p w1) = Some c
  /\ get_sms_code env_get p w1 = _get_sms_code_fallback env_get p w1
  /\ redis_client w1 = false /\ redis_client w2 = false
  /\ redis_keys w2 = redis_keys w
  /\ (forall env q c' ttl',
        redis_client (snd (set_sms_code env q c' ttl' w2)) = false
        /\ redis_client (snd (get_sms_code env q w2)) = false
        /\ redis_client (snd (delete_sms_code env q w2)) = false)
  /\ (forall w0 es eg,
        redis_client w0 = true -> redis_reply es = None -> redis_reply eg = None ->
        0 < ttl -> redis_time eg < redis_time es + ttl ->
        fst (set_sms_code es p c ttl w0) = true
        /\ fst (get_sms_code eg p (snd (set_sms_code es p c ttl w0))) = Some c).
Proof.
  intros Hdown Hlive w1 w2.
  destruct (set_sms_code_fallback env_set p c ttl w Hdown) as (Hc1 & Hk1 & Hd1).
  fold w1 in Hc1, Hk1, Hd1.
  destruct (client_stays_down env_get p c ttl w1 Hc1) as (_ & (Hc2 & Hk2 & Hget) & _).
  fold w2 in Hc2, Hk2.
  split; [apply set_sms_code_true|].
  split.
  { rewrite Hget.
    apply (fallback_get_live env_get p w1 {| code := c; expires := clock env_set 0 + ttl |}).
    - rewrite Hd1. apply lookup_insert_eq.
    - exact Hlive. }
  split; [exact Hget|]. split; [exact Hc1|]. split; [exact Hc2|].
  split; [congruence|]. split.
  - intros env q c' ttl'.
    destruct (client_stays_down env q c' ttl' w2 Hc2) as ((? & _) & (? & _) & (? & _)).
    auto.
  - intros w0 es eg Hc0 Hes Heg Httl Ht.
    split; [apply set_sms_code_true|].
    destruct (set_sms_code_primary es p c ttl w0 Hc0 Hes Httl) as (Hc & Hk & _).
    apply (get_sms_code_primary eg p _ {| code := c; expires := redis_time es + ttl |});
      auto.
    rewrite Hk. apply lookup_insert_eq.
Qed.

Lemma fallback_round_trip_witness :
  (redis_client Sample.world_up = false \/ is_Some (redis_reply (Sample.env_err 1010)))
  /\ clock (Sample.env_ok 1200) 0 < clock (Sample.env_err 1010) 0 + 300
  /\ fst (get_sms_code (Sample.env_ok 1200) Sample.normalized
            (snd (set_sms_code (Sample.env_err 1010) Sample.normalized "1234" 300
                    Sample.world_up))) = Some "1234".
Proof.
  assert (H1 : redis_client Sample.world_up = false
               \/ is_Some (redis_reply (Sample.env_err 1010)))
    by (right; eexists; reflexivity).
  assert (H2 : forall k, clock (Sample.env_ok 1200) k < clock (Sample.env_err 1010) 0 + 300)
    by (intros k; simpl; lia).
  split; [exact H1|]. split; [exact (H2 0%nat)|].
  exact (proj1 (proj2 (fallback_round_trip (Sample.env_err 1010) (Sample.env_ok 1200)
                         Sample.normalized "1234" 300 Sample.world_up H1 H2))).
Defined.

(** Outside the premise of the round trip: a code that went to Redis is
    not carried over when a later read meets the first Redis error; the
    read falls through to the empty dictionary. *)
Remark code_in_redis_not_carried_over
    (es eg : Env) (p c e : string) (ttl : Z) (w : World) :
  fallback_unused w ->
  redis_client w = true -> redis_reply es = None -> 0 < ttl ->
  redis_reply eg = Some e ->
  fst (get_sms_code eg p (snd (set_sms_code es p c ttl w))) = None.
Proof.
  intros Hwf Hc Hes Httl Heg.
  destruct (set_sms_code_primary es p c ttl w Hc Hes Httl) as (Hc1 & _ & Hd1).
  unfold get_sms_code, bind, Redis.get, logger_error, ret.
  rewrite Hc1, Heg. simpl. apply fallback_get_expired.
  intros x Hx. simpl in Hx. rewrite Hd1, (Hwf Hc), lookup_empty in Hx. discriminate.
Qed.

End StoreFacts.

(** * Properties of the authentication routes *)

Module AuthFacts.

Import SMSStorage AuthRouter StoreFacts.

Lemma emit_db (l : Level) (m : string) (w : World) : db (snd (emit l m w)) = db w.
Proof. reflexivity. Qed.

Lemma insert_user_run (phone : string) (w : World) :
  let w' := snd (insert_user phone w) in
  extends w w'
  /\ fst (insert_user phone w) = next_user_id (db w)
  /\ users (db w')
     = (users (db w) ++ [{| user_id := next_user_id (db w); phone_number := phone;
                            role := "CLIENT"; is_active := true |}])%list
  /\ orders (db w') = orders (db w) /\ pvz (db w') = pvz (db w).
Proof. unfold extends, logged. simpl. repeat split; auto. Qed.

(** One run of [verify_sms_code], step by step: the read, the delete that
    follows a hit, the comparison, the user row. *)
Lemma verify_sms_code_run (eg ed : Env) (u : Z) (body : SMSCode) (w : World) :
  let phone := sms_phone_number body in
  let r := fst (verify_sms_code eg ed u body w) in
  let w' := snd (verify_sms_code eg ed u body w) in
  exists w0, extends w w0 /\ db w0 = db w /\
  let stored := fst (get_sms_code eg phone w0) in
  let w1 := snd (get_sms_code eg phone w0) in
  exists w2, extends w1 w2 /\ logged (fetched_line stored phone) w2 /\
  if falsy stored then r = Raise CodeNotFound /\ extends w2 w' /\ db w' = db w
  else
    extends (snd (delete_sms_code ed phone w2)) w' /\
    if negb (str_opt stored =? sms_code body)%string
    then r = Raise CodeMismatch /\ db w' = db w
    else
      match find_user (db w) phone with
      | Some usr =>
          if is_active usr then r = Ok (token_for u phone) /\ db w' = db w
          else r = Raise AccountDisabled /\ db w' = db w
      | None =>
          r = Ok (token_for u phone)
          /\ users (db w')
             = (users (db w) ++ [{| user_id := next_user_id (db w); phone_number := phone;
                                    role := "CLIENT"; is_active := true |}])%list
          /\ orders (db w') = orders (db w) /\ pvz (db w') = pvz (db w)
      end.
Proof.
  intros phone r w'. subst r w'. unfold verify_sms_code. fold phone.
  rewrite bind_run. cbn [fst].
  set (w0 := snd (logger_info _ w)).
  exists w0. split; [apply emit_extends|]. split; [reflexivity|].
  cbv zeta. rewrite bind_run.
  pose proof (storage_keeps_db eg phone "" 0 w0) as (_ & Hdb1 & _).
  destruct (get_sms_code eg phone w0) as [stored w1]. cbn [fst snd] in *.
  rewrite bind_run. cbn [fst]. set (w2 := snd (logger_info _ w1)).
  assert (E12 : extends w1 w2) by apply emit_extends.
  assert (L2 : logged (fetched_line stored phone) w2) by apply emit_logged.
  exists w2. split; [exact E12|]. split; [exact L2|].
  destruct (falsy stored).
  { rewrite bind_run. cbn [ret fst snd]. repeat split.
    - apply emit_extends.
    - exact Hdb1. }
  rewrite bind_run. cbn [fst].
  pose proof (storage_keeps_db ed phone "" 0 w2) as (_ & _ & Hdb3).
  set (w3 := snd (delete_sms_code ed phone w2)) in *.
  assert (Hdb : db w3 = db w) by (rewrite Hdb3; exact Hdb1).
  destruct (negb (str_opt stored =? sms_code body)%string).
  { rewrite bind_run. cbn [ret fst snd]. repeat split; [apply emit_extends | exact Hdb]. }
  rewrite bind_run. cbn [fst]. set (w4 := snd (logger_info _ w3)).
  assert (E34 : extends w3 w4) by apply emit_extends.
  rewrite bind_run. cbn [fst snd].
  change (db w4) with (db w3). rewrite Hdb.
  destruct (find_user (db w) phone) as [usr|].
  - destruct (is_active usr); cbn [negb].
    + rewrite !bind_run. cbn [ret fst snd]. repeat split; [|exact Hdb].
      eapply extends_trans; [exact E34 | apply emit_extends].
    + rewrite !bind_run. cbn [ret fst snd]. repeat split; [|exact Hdb].
      eapply extends_trans; [exact E34 | apply emit_extends].
  - unfold logger_info. repeat (rewrite bind_run; cbn [ret fst snd]).
    rewrite !emit_db.
    match goal with |- context [insert_user phone ?x] =>
      pose proof (insert_user_run phone x) as (E56 & _ & Hu & Ho & Hp);
      cbv zeta in E56, Hu, Ho, Hp; rewrite !emit_db in Hu, Ho, Hp;
      change (db w4) with (db w3) in Hu, Ho, Hp; rewrite Hdb in Hu, Ho, Hp
    end.
    repeat split; try assumption.
    eapply extends_trans; [exact E34|].
    eapply extends_trans; [apply emit_extends|].
    eapply extends_trans; [exact E56|].
    eapply extends_trans; [apply emit_extends|]. apply emit_extends.
Qed.

Lemma send_sms_extends (o : SmsOutcome) (phone code : string) (w : World) :
  extends w (snd (send_sms o phone code w)).
Proof.
  destruct o; unfold send_sms; rewrite ?bind_run; cbn [ret fst snd];
    try apply print_extends. apply extends_refl.
Qed.

(** One run of [send_sms_code]: the code is logged, stored, handed to the
    notifier, and deleted again when the notifier fails. *)
Lemma send_sms_code_run (rb : nat -> nat) (es : Env) (o : SmsOutcome) (ed : Env)
    (phone : string) (w : World) :
  let code := generate_sms_code rb 4 in
  let r := fst (send_sms_code rb es o ed phone w) in
  let w' := snd (send_sms_code rb es o ed phone w) in
  exists w0, extends w w0 /\ logged (generated_line code phone) w0 /\
  let w1 := snd (set_sms_code es phone code default_ttl w0) in
  (forall l, logged l w0 -> logged l w')
  /\ match o with
     | Printed =>
         r = Ok {| resp_message := "SMS код отправлен"; resp_phone_number := phone;
                   resp_code := code |}
         /\ extends w1 w'
     | _ =>
         r = Raise SmsFailed
         /\ exists w2, extends w1 w2 /\ extends (snd (delete_sms_code ed phone w2)) w'
     end.
Proof.
  intros code r w'. subst r w'. unfold send_sms_code. fold code.
  unfold logger_info, logger_error.
  rewrite bind_run. cbn [fst]. set (wa := snd (emit _ _ w)).
  rewrite bind_run. cbn [fst]. set (w0 := snd (emit _ _ wa)).
  exists w0. split; [|split].
  { eapply extends_trans; apply emit_extends. }
  { apply emit_logged. }
  cbv zeta. rewrite bind_run.
  pose proof (set_sms_code_true es phone code default_ttl w0) as Htrue.
  pose proof (set_sms_code_logged es phone code default_ttl w0) as Hlog.
  destruct (set_sms_code es phone code default_ttl w0) as [stored w1].
  cbn [fst snd] in *. subst stored. cbn [negb].
  rewrite bind_run. cbn [fst]. set (w2 := snd (emit _ _ w1)).
  assert (E12 : extends w1 w2) by apply emit_extends.
  rewrite bind_run.
  pose proof (send_sms_extends o phone code w2) as E23.
  assert (E13 : extends w1 (snd (send_sms o phone code w2)))
    by (eapply extends_trans; eassumption).
  clear E23.
  destruct o as [|e|e e']; unfold send_sms in *;
    repeat (rewrite bind_run in *; cbn [ret fst snd] in * ).
  - split.
    + intros l Hl. apply emit_extends. eapply logged_extends; [exact E13|]. auto.
    + split; [reflexivity|]. eapply extends_trans; [exact E13 | apply emit_extends].
  - set (w4 := snd (emit _ _ _)).
    assert (E14 : extends w1 w4)
      by (eapply extends_trans; [exact E13 | apply emit_extends]).
    split.
    + intros l Hl. apply delete_sms_code_logged.
      eapply logged_extends; [exact E14|]. auto.
    + split; [reflexivity|]. exists w4. split; [exact E14 | apply extends_refl].
  - set (w4 := snd (emit _ _ _)).
    assert (E14 : extends w1 w4).
    { eapply extends_trans; [exact E13|]. subst w4.
      eapply extends_trans; apply emit_extends. }
    split.
    + intros l Hl. apply delete_sms_code_logged.
      eapply logged_extends; [exact E14|]. auto.
    + split; [reflexivity|]. exists w4. split; [exact E14 | apply extends_refl].
Qed.

(** *** Consequences for the code store *)

Lemma verify_unreadable (eg ed : Env) (u : Z) (body : SMSCode) (w : World) :
  unreadable w (sms_phone_number body) eg ->
  fst (verify_sms_code eg ed u body w) = Raise CodeNotFound.
Proof.
  intros Hun.
  destruct (verify_sms_code_run eg ed u body w) as (w0 & E0 & _ & w2 & _ & _ & H).
  rewrite (get_sms_code_unreadable eg _ w0) in H
    by (eapply unreadable_extends; eassumption).
  simpl in H. apply H.
Qed.

Lemma verify_found_absent (eg ed : Env) (u : Z) (body : SMSCode) (w : World) :
  fallback_unused w ->
  fst (verify_sms_code eg ed u body w) <> Raise CodeNotFound ->
  absent (snd (verify_sms_code eg ed u body w)) (sms_phone_number body).
Proof.
  intros Hwf Hne.
  destruct (verify_sms_code_run eg ed u body w) as (w0 & E0 & _ & w2 & E12 & _ & H).
  destruct (falsy _).
  - destruct H as (H & _). contradiction.
  - destruct H as (E & _). eapply absent_extends; [exact E|].
    apply delete_sms_code_absent.
    eapply fallback_unused_extends; [exact E12|].
    apply get_sms_code_wf. eapply fallback_unused_extends; eassumption.
Qed.

Lemma verify_sms_code_wf (eg ed : Env) (u : Z) (body : SMSCode) (w : World) :
  fallback_unused w -> fallback_unused (snd (verify_sms_code eg ed u body w)).
Proof.
  intros Hwf.
  destruct (verify_sms_code_run eg ed u body w) as (w0 & E0 & _ & w2 & E12 & _ & H).
  assert (Hwf2 : fallback_unused w2).
  { eapply fallback_unused_extends; [exact E12|].
    apply get_sms_code_wf. eapply fallback_unused_extends; eassumption. }
  destruct (falsy _).
  - destruct H as (_ & E & _). eapply fallback_unused_extends; eassumption.
  - destruct H as (E & _). eapply fallback_unused_extends; [exact E|].
    now apply delete_sms_code_wf.
Qed.

Lemma send_sms_code_wf (rb : nat -> nat) (es : Env) (o : SmsOutcome) (ed : Env)
    (phone : string) (w : World) :
  fallback_unused w -> fallback_unused (snd (send_sms_code rb es o ed phone w)).
Proof.
  intros Hwf.
  destruct (send_sms_code_run rb es o ed phone w) as (w0 & E0 & _ & _ & H).
  assert (Hwf1 : fallback_unused (snd (set_sms_code es phone (generate_sms_code rb 4)
                                         default_ttl w0))).
  { apply set_sms_code_wf. eapply fallback_unused_extends; eassumption. }
  destruct o;
    [ destruct H as (_ & E); eapply fallback_unused_extends; eassumption
    | destruct H as (_ & w2 & E12 & E);
      (eapply fallback_unused_extends; [exact E|]);
      apply delete_sms_code_wf; eapply fallback_unused_extends; eassumption .. ].
Qed.

(** The hypothesis [fallback_unused] of the theorems below is an invariant
    of the process: it holds at start and every route keeps it. *)
Lemma fallback_unused_invariant :
  (forall ping keys t0 d, fallback_unused (start ping keys t0 d))
  /\ (forall rb es o ed raw w,
        fallback_unused w -> fallback_unused (snd (RequestCode rb es o ed raw w)))
  /\ (forall eg ed u phone c w,
        fallback_unused w -> fallback_unused (snd (VerifyCode eg ed u phone c w))).
Proof.
  split; [|split].
  - intros. unfold fallback_unused. reflexivity.
  - intros rb es o ed raw w Hwf. unfold RequestCode.
    destruct (PhoneAuth.validate_phone raw); [now apply send_sms_code_wf | exact Hwf].
  - intros. now apply verify_sms_code_wf.
Qed.

(** C3: a verification attempt that finds a code for the phone number
    (whatever its outcome: match, mismatch, disabled account) deletes it, so
    a second call for the same phone number fails with CodeNotFound and
    nothing can be read for that number any more. Two calls never both
    succeed. *)
Theorem verify_code_single_use
    (e1 e2 e3 e4 : Env) (u1 u2 : Z) (phone c c' : string) (w : World) :
  fallback_unused w ->
  fst (VerifyCode e1 e2 u1 phone c w) <> Raise CodeNotFound ->
  let w1 := snd (VerifyCode e1 e2 u1 phone c w) in
  fst (VerifyCode e3 e4 u2 phone c' w1) = Raise CodeNotFound
  /\ (forall env, fst (get_sms_code env phone w1) = None)
  /\ is_ok (fst (VerifyCode e1 e2 u1 phone c w))
     && is_ok (fst (VerifyCode e3 e4 u2 phone c' w1)) = false.
Proof.
  intros Hwf Hfound w1. unfold VerifyCode in *.
  assert (Habs : absent w1 phone)
    by exact (verify_found_absent e1 e2 u1 _ w Hwf Hfound).
  assert (H2 : fst (verify_sms_code e3 e4 u2
                      {| sms_phone_number := phone; sms_code := c' |} w1)
               = Raise CodeNotFound)
    by (apply verify_unreadable; now apply absent_unreadable).
  split; [exact H2|]. split.
  - intros env. apply get_sms_code_unreadable. now apply absent_unreadable.
  - rewrite H2. simpl. apply andb_false_r.
Qed.

Lemma verify_code_single_use_witness :
  fallback_unused (Sample.requested Sample.world_up)
  /\ fst (VerifyCode (Sample.env_ok 1020) (Sample.env_ok 1020) 1020 Sample.normalized "1234"
            (Sample.requested Sample.world_up))
     = Ok (token_for 1020 Sample.normalized)
  /\ fst (VerifyCode (Sample.env_ok 1030) (Sample.env_ok 1030) 1030 Sample.normalized "1234"
            (snd (VerifyCode (Sample.env_ok 1020) (Sample.env_ok 1020) 1020
                    Sample.normalized "1234" (Sample.requested Sample.world_up))))
     = Raise CodeNotFound.
Proof.
  assert (Hwf : fallback_unused (Sample.requested Sample.world_up))
    by (intros _; vm_compute; reflexivity).
  assert (Hfirst : fst (VerifyCode (Sample.env_ok 1020) (Sample.env_ok 1020) 1020
                          Sample.normalized "1234" (Sample.requested Sample.world_up))
                   = Ok (token_for 1020 Sample.normalized))
    by (vm_compute; reflexivity).
  split; [exact Hwf|]. split; [exact Hfirst|].
  refine (proj1 (verify_code_single_use (Sample.env_ok 1020) (Sample.env_ok 1020)
                   (Sample.env_ok 1030) (Sample.env_ok 1030) 1020 1030
                   Sample.normalized "1234" "1234" _ Hwf _)).
  rewrite Hfirst. discriminate.
Defined.

(** C4: a code stored at some time with a time to live cannot be verified
    strictly after that time plus the time to live, whatever code is
    submitted: VerifyCode fails with CodeNotFound. This holds for
    [set_sms_code] with any [ttl], for the code stored by [send_sms_code]
    with its default of 300 seconds, and for the fallback dictionary on its
    own, where a read at or after [expires] returns nothing. *)
Theorem expired_code_not_found
    (es eg ed : Env) (u : Z) (phone code submitted : string) (ttl : Z) (w : World) :
  fallback_unused w ->
  redis_time es + ttl < redis_time eg ->
  (forall k, clock es 0 + ttl < clock eg k) ->
  fst (VerifyCode eg ed u phone submitted (snd (set_sms_code es phone code ttl w)))
  = Raise CodeNotFound
  /\ (ttl = default_ttl ->
      forall rb o ed0,
        fst (VerifyCode eg ed u phone submitted (snd (send_sms_code rb es o ed0 phone w)))
        = Raise CodeNotFound)
  /\ (forall w0 e,
        dev_sms_storage w0 !! phone = Some e ->
        (forall k, expires e <= clock eg k) ->
        fst (_get_sms_code_fallback eg phone w0) = None).
Proof.
  intros Hwf Hr Hk. split; [|split].
  - apply verify_unreadable. simpl.
    apply set_sms_code_unreadable; [assumption | lia | intros k; specialize (Hk k); lia].
  - intros -> rb o ed0. apply verify_unreadable. simpl.
    destruct (send_sms_code_run rb es o ed0 phone w) as (w0 & E0 & _ & _ & H).
    assert (Hun : unreadable (snd (set_sms_code es phone (generate_sms_code rb 4)
                                     default_ttl w0)) phone eg).
    { apply set_sms_code_unreadable;
        [eapply fallback_unused_extends; eassumption | lia
        | intros k; specialize (Hk k); lia]. }
    destruct o;
      [ destruct H as (_ & E); eapply unreadable_extends; eassumption
      | destruct H as (_ & w2 & E12 & E);
        (eapply unreadable_extends; [exact E|]);
        apply absent_unreadable, delete_sms_code_absent;
        (eapply fallback_unused_extends; [exact E12|]);
        apply set_sms_code_wf; eapply fallback_unused_extends; eassumption .. ].
  - intros w0 e He Hexp. apply fallback_get_expired.
    intros e' He'. rewrite He in He'. injection He' as <-. exact Hexp.
Qed.

Lemma expired_code_not_found_witness :
  fallback_unused Sample.world_down
  /\ redis_time (Sample.env_err 1010) + 300 < redis_time (Sample.env_err 1311)
  /\ fst (VerifyCode (Sample.env_err 1311) (Sample.env_err 1311) 1311 Sample.normalized "1234"
            (snd (set_sms_code (Sample.env_err 1010) Sample.normalized "1234" 300
                    Sample.world_down)))
     = Raise CodeNotFound.
Proof.
  assert (Hwf : fallback_unused Sample.world_down) by (intros H; discriminate H).
  assert (Ht : redis_time (Sample.env_err 1010) + 300 < redis_time (Sample.env_err 1311))
    by (simpl; lia).
  split; [exact Hwf|]. split; [exact Ht|].
  refine (proj1 (expired_code_not_found (Sample.env_err 1010) (Sample.env_err 1311)
                   (Sample.env_err 1311) 1311 Sample.normalized "1234" "1234" 300
                   Sample.world_down Hwf Ht _)).
  intros k. simpl. lia.
Defined.

(** C7: when the notifier fails, by returning [False] or by raising,
    [send_sms_code] deletes the code it has just stored and raises the
    error "Ошибка отправки SMS": afterwards nothing can be read for that
    phone number and every VerifyCode for it fails with CodeNotFound. The
    same holds for RequestCode, which runs [send_sms_code] on the
    normalized number. *)
Theorem failed_notifier_revokes_code
    (rb : nat -> nat) (es : Env) (o : SmsOutcome) (ed : Env) (phone : string) (w : World) :
  fallback_unused w ->
  o <> Printed ->
  let w' := snd (send_sms_code rb es o ed phone w) in
  fst (send_sms_code rb es o ed phone w) = Raise SmsFailed
  /\ (forall env, fst (get_sms_code env phone w') = None)
  /\ (forall eg ed' u c, fst (VerifyCode eg ed' u phone c w') = Raise CodeNotFound)
  /\ (forall raw, PhoneAuth.validate_phone raw = Some phone ->
                  RequestCode rb es o ed raw w = send_sms_code rb es o ed phone w).
Proof.
  intros Hwf Ho w'.
  destruct (send_sms_code_run rb es o ed phone w) as (w0 & E0 & _ & _ & H).
  assert (Hres : fst (send_sms_code rb es o ed phone w) = Raise SmsFailed
                 /\ absent w' phone).
  { destruct o; [contradiction | ..];
      destruct H as (Hr & w2 & E12 & E); (split; [exact Hr|]);
      (eapply absent_extends; [exact E|]); apply delete_sms_code_absent;
      (eapply fallback_unused_extends; [exact E12|]);
      apply set_sms_code_wf; eapply fallback_unused_extends; eassumption. }
  destruct Hres as [Hr Habs]. split; [exact Hr|]. split; [|split].
  - intros env. apply get_sms_code_unreadable. now apply absent_unreadable.
  - intros eg ed' u c. apply verify_unreadable. now apply absent_unreadable.
  - intros raw Hraw. unfold RequestCode. now rewrite Hraw.
Qed.

Lemma failed_notifier_revokes_code_witness :
  fallback_unused Sample.world_up
  /\ PrintFailed "BrokenPipeError" <> Printed
  /\ fst (send_sms_code Sample.draws (Sample.env_ok 1010) (PrintFailed "BrokenPipeError")
            (Sample.env_ok 1011) Sample.normalized Sample.world_up)
     = Raise SmsFailed.
Proof.
  assert (Hwf : fallback_unused Sample.world_up) by (intros _; reflexivity).
  assert (Ho : PrintFailed "BrokenPipeError" <> Printed) by discriminate.
  split; [exact Hwf|]. split; [exact Ho|].
  exact (proj1 (failed_notifier_revokes_code Sample.draws (Sample.env_ok 1010)
                  (PrintFailed "BrokenPipeError") (Sample.env_ok 1011)
                  Sample.normalized Sample.world_up Hwf Ho)).
Defined.

(** *** Where the code value shows up *)

Lemma prefix_append (s t : string) : String.prefix s (s +:+ t) = true.
Proof.
  induction s as [|a s IH]; simpl; [now destruct t|].
  destruct (Ascii.ascii_dec a a); [exact IH | contradiction].
Qed.

Lemma contains_prefix (c hay : string) :
  String.prefix c hay = true -> contains c hay = true.
Proof.
  intros H. destruct hay as [|y hay].
  - destruct c; [reflexivity | discriminate H].
  - cbn [contains]. now rewrite H.
Qed.

Lemma contains_append (c a b : string) : contains c (a +:+ c +:+ b) = true.
Proof.
  induction a as [|x a IH].
  - change ("" +:+ c +:+ b) with (c +:+ b). apply contains_prefix, prefix_append.
  - change ((String x a) +:+ c +:+ b) with (String x (a +:+ c +:+ b)).
    cbn [contains]. rewrite IH. apply orb_true_r.
Qed.

Lemma digits_not_in_text (c hay : string) :
  digits c = true ->
  all_chars (fun x => negb (PhoneAuth.is_digit x)) hay = true ->
  contains c hay = false.
Proof.
  unfold digits. destruct c as [|x c]; [discriminate|]. simpl.
  intros Hx%andb_prop. destruct Hx as [Hx _].
  induction hay as [|y hay IH]; simpl; [reflexivity|].
  intros [Hy Hrest]%andb_prop. rewrite (IH Hrest), orb_false_r.
  destruct (Ascii.ascii_dec x y) as [->|]; [|reflexivity].
  rewrite Hx in Hy. discriminate.
Qed.

Lemma pretty_digit (n : nat) :
  (n < 10)%nat ->
  exists ch, pretty (Z.of_nat n) = String ch "" /\ PhoneAuth.is_digit ch = true.
Proof.
  intros H.
  do 10 (destruct n as [|n]; [eexists; split; vm_compute; reflexivity|]).
  lia.
Qed.

Lemma generate_sms_code_digits (rb : nat -> nat) : digits (generate_sms_code rb 4) = true.
Proof.
  unfold generate_sms_code. cbn [seq foldr].
  destruct (pretty_digit (rb 0%nat mod 10)) as (c0 & -> & H0);
    [apply Nat.mod_upper_bound; lia|].
  destruct (pretty_digit (rb 1%nat mod 10)) as (c1 & -> & H1);
    [apply Nat.mod_upper_bound; lia|].
  destruct (pretty_digit (rb 2%nat mod 10)) as (c2 & -> & H2);
    [apply Nat.mod_upper_bound; lia|].
  destruct (pretty_digit (rb 3%nat mod 10)) as (c3 & -> & H3);
    [apply Nat.mod_upper_bound; lia|].
  unfold digits. simpl. now rewrite H0, H1, H2, H3.
Qed.

(** The errors the two routes can raise. *)
Lemma raised_errors :
  (forall rb es o ed phone w e,
      fst (send_sms_code rb es o ed phone w) = Raise e -> e = SmsFailed)
  /\ (forall eg ed u body w e,
        fst (verify_sms_code eg ed u body w) = Raise e ->
        e = CodeNotFound \/ e = CodeMismatch \/ e = AccountDisabled).
Proof.
  split.
  - intros rb es o ed phone w e Hr.
    destruct (send_sms_code_run rb es o ed phone w) as (w0 & _ & _ & _ & H).
    destruct o; destruct H as (H & _); rewrite H in Hr; congruence.
  - intros eg ed u body w e Hr.
    destruct (verify_sms_code_run eg ed u body w) as (w0 & _ & _ & w2 & _ & _ & H).
    destruct (falsy _); [destruct H as (H & _); left; congruence|].
    destruct H as (_ & H).
    destruct (negb _); [destruct H as (H & _); right; left; congruence|].
    destruct (find_user _ _) as [usr|].
    + destruct (is_active usr); destruct H as (H & _);
        [congruence | right; right; congruence].
    + destruct H as (H & _). congruence.
Qed.

(** C9, as stated, fails: a successful request for 9991234567 with the
    code 1234 writes the code to the log and returns it in the response,
    and a mismatching verification writes it to the log again. *)
Lemma code_value_is_logged_and_returned :
  generate_sms_code Sample.draws 4 = "1234"
  /\ fst (RequestCode Sample.draws (Sample.env_ok 1010) Printed (Sample.env_ok 1010)
            "9991234567" Sample.world_up)
     = Ok {| resp_message := "SMS код отправлен";
             resp_phone_number := "+7 999 123-45-67";
             resp_code := "1234" |}
  /\ logged {| level := INFO;
               message := "Сгенерирован код: 1234 для номера: +7 999 123-45-67" |}
            (Sample.requested Sample.world_up)
  /\ logged {| level := WARNING;
               message := "Неверный код для +7 999 123-45-67. Ожидался: 1234, получен: 0000" |}
            (snd (VerifyCode (Sample.env_ok 1020) (Sample.env_ok 1020) 1020
                    Sample.normalized "0000" (Sample.requested Sample.world_up))).
Proof.
  unfold logged. vm_compute. repeat split; auto 10.
Qed.

(** C9, amended: the code drawn by [send_sms_code] is a string of four
    digits; it is written to the log at level INFO when it is drawn and it
    is the [code] field of the successful response; [verify_sms_code]
    writes the code it read from the store to the log; but no error raised
    by either route carries a string of digits in its [detail], so the code
    never appears in an error message. *)
Theorem code_exposure
    (rb : nat -> nat) (es : Env) (o : SmsOutcome) (ed : Env) (phone : string) (w : World) :
  let code := generate_sms_code rb 4 in
  let r := fst (send_sms_code rb es o ed phone w) in
  let w' := snd (send_sms_code rb es o ed phone w) in
  digits code = true
  /\ logged (generated_line code phone) w'
  /\ contains code (message (generated_line code phone)) = true
  /\ (forall resp, r = Ok resp -> resp_code resp = code)
  /\ (forall e c, r = Raise e -> digits c = true -> contains c (detail e) = false)
  /\ (forall eg ed' u body w0 e c,
        fst (verify_sms_code eg ed' u body w0) = Raise e ->
        digits c = true -> contains c (detail e) = false)
  /\ (forall eg ed' u body w0,
        exists w1, extends w0 w1
        /\ let stored := fst (get_sms_code eg (sms_phone_number body) w1) in
           logged (fetched_line stored (sms_phone_number body))
                  (snd (verify_sms_code eg ed' u body w0))
           /\ contains (str_opt stored)
                (message (fetched_line stored (sms_phone_number body))) = true).
Proof.
  intros code r w'.
  destruct (send_sms_code_run rb es o ed phone w) as (w0 & E0 & Hlog & Hmono & H).
  fold code r w' in Hlog, Hmono, H.
  split; [apply generate_sms_code_digits|].
  split; [now apply Hmono|].
  split; [apply contains_append|].
  split.
  { intros resp Hr. destruct o; destruct H as (H & _); rewrite H in Hr;
      [injection Hr as <-; reflexivity | discriminate ..]. }
  split.
  { intros e c Hr Hc. apply (proj1 raised_errors) in Hr as ->.
    apply digits_not_in_text; [exact Hc | reflexivity]. }
  split.
  { intros eg ed' u body w0' e c Hr Hc.
    apply (proj2 raised_errors) in Hr as [->|[->| ->]];
      (apply digits_not_in_text; [exact Hc | reflexivity]). }
  intros eg ed' u body w0'.
  destruct (verify_sms_code_run eg ed' u body w0') as (w1 & E1 & _ & w2 & _ & L2 & Hv).
  exists w1. split; [exact E1|]. cbv zeta. split; [|apply contains_append].
  destruct (falsy _).
  - destruct Hv as (_ & E & _). eapply logged_extends; eassumption.
  - destruct Hv as (E & _). eapply logged_extends; [exact E|].
    now apply delete_sms_code_logged.
Qed.

Lemma code_exposure_witness :
  fst (send_sms_code Sample.draws (Sample.env_ok 1010) Printed (Sample.env_ok 1010)
         Sample.normalized Sample.world_up)
  = Ok {| resp_message := "SMS код отправлен"; resp_phone_number := Sample.normalized;
          resp_code := "1234" |}
  /\ resp_code {| resp_message := "SMS код отправлен";
                  resp_phone_number := Sample.normalized; resp_code := "1234" |}
     = generate_sms_code Sample.draws 4.
Proof.
  assert (Hr : fst (send_sms_code Sample.draws (Sample.env_ok 1010) Printed
                      (Sample.env_ok 1010) Sample.normalized Sample.world_up)
               = Ok {| resp_message := "SMS код отправлен";
                       resp_phone_number := Sample.normalized; resp_code := "1234" |})
    by (vm_compute; reflexivity).
  split; [exact Hr|].
  destruct (code_exposure Sample.draws (Sample.env_ok 1010) Printed (Sample.env_ok 1010)
              Sample.normalized Sample.world_up) as (_ & _ & _ & H & _).
  exact (H _ Hr).
Defined.

(** C6, evaluated: after a successful request for 9991234567 the code sits
    under the normalized key "+7 999 123-45-67". VerifyCode with the number
    as typed and a wrong code answers CodeNotFound, not CodeMismatch, in
    either tier; the code is not consumed by that attempt: the right code
    sent with the number as typed is still refused, and sent with the
    normalized number it is accepted. *)
Lemma verify_with_typed_number_finds_nothing :
  PhoneAuth.validate_phone "9991234567" = Some "+7 999 123-45-67"
  /\ is_ok (fst (RequestCode Sample.draws (Sample.env_ok 1010) Printed (Sample.env_ok 1010)
                   "9991234567" Sample.world_up)) = true
  /\ fst (VerifyCode (Sample.env_ok 1020) (Sample.env_ok 1020) 1020 "9991234567" "0000"
            (Sample.requested Sample.world_up)) = Raise CodeNotFound
  /\ fst (VerifyCode (Sample.env_ok 1020) (Sample.env_ok 1020) 1020 "9991234567" "0000"
            (Sample.requested Sample.world_down)) = Raise CodeNotFound
  /\ fst (VerifyCode (Sample.env_ok 1030) (Sample.env_ok 1030) 1030 "9991234567" "1234"
            (snd (VerifyCode (Sample.env_ok 1020) (Sample.env_ok 1020) 1020
                    "9991234567" "0000" (Sample.requested Sample.world_up))))
     = Raise CodeNotFound
  /\ fst (VerifyCode (Sample.env_ok 1030) (Sample.env_ok 1030) 1030 "+7 999 123-45-67" "1234"
            (snd (VerifyCode (Sample.env_ok 1020) (Sample.env_ok 1020) 1020
                    "9991234567" "0000" (Sample.requested Sample.world_up))))
     = Ok (token_for 1030 "+7 999 123-45-67")
  /\ fst (VerifyCode (Sample.env_ok 1020) (Sample.env_ok 1020) 1020 "+7 999 123-45-67" "0000"
            (Sample.requested Sample.world_up)) = Raise CodeMismatch.
Proof. vm_compute. repeat split; reflexivity. Qed.

(** *** The actor created at first verification *)

Lemma find_user_appended (d d' : Db) (phone : string) (usr : User) :
  find_user d phone = None ->
  users d' = (users d ++ [usr])%list ->
  phone_number usr = phone ->
  find_user d' phone = Some usr.
Proof.
  unfold find_user. intros Hnone -> <-.
  induction (users d) as [|x l IH]; simpl in *.
  - now rewrite String.eqb_refl.
  - destruct (phone_number x =? phone_number usr)%string; [discriminate|]. now apply IH.
Qed.

End AuthFacts.

(** * Further properties: phone numbers and codes *)

Module PhoneFacts.

Import PhoneAuth.

Lemma is_digit_ascii (c : ascii) :
  is_digit c = true -> (nat_of_ascii c <? 128)%nat = true.
Proof.
  unfold is_digit. intros H. apply andb_prop in H as [_ H].
  apply Nat.leb_le in H. apply Nat.ltb_lt. lia.
Qed.

Lemma remove_non_digits_all_digits (v : string) :
  all_chars is_digit (remove_non_digits v) = true.
Proof.
  induction v as [|c v IH]; simpl; [reflexivity|].
  destruct (is_digit c) eqn:E; [simpl; now rewrite E | exact IH].
Qed.

Lemma remove_non_digits_fixed (s : string) :
  all_chars is_digit s = true -> remove_non_digits s = s.
Proof.
  induction s as [|c s IH]; simpl; [reflexivity|].
  intros [Hc Hs]%andb_prop. rewrite Hc. f_equal. now apply IH.
Qed.

Lemma remove_non_digits_idempotent (v : string) :
  remove_non_digits (remove_non_digits v) = remove_non_digits v.
Proof. apply remove_non_digits_fixed, remove_non_digits_all_digits. Qed.

Lemma prefix_char (a : string) (c : ascii) (s : string) :
  String.prefix a (String c s) = true -> a = "" \/ exists a', a = String c a'.
Proof.
  destruct a as [|x a]; [now left|]. simpl.
  destruct (Ascii.ascii_dec x c) as [->|]; [|discriminate]. right. now exists a.
Qed.

(** Peel one character off a string whose length is known. *)
Ltac peel s c :=
  destruct s as [|c s]; [discriminate|].

Lemma validate_phone_formatted (v p : string) :
  validate_phone v = Some p ->
  exists d1 d2 d3 d4 d5 d6 d7 d8 d9 d10,
    p = Tables.formatted d1 d2 d3 d4 d5 d6 d7 d8 d9 d10
    /\ all_chars is_digit (Tables.ten d1 d2 d3 d4 d5 d6 d7 d8 d9 d10) = true
    /\ (remove_non_digits v = String "7" (Tables.ten d1 d2 d3 d4 d5 d6 d7 d8 d9 d10)
        \/ remove_non_digits v = Tables.ten d1 d2 d3 d4 d5 d6 d7 d8 d9 d10).
Proof.
  unfold validate_phone.
  pose proof (remove_non_digits_all_digits v) as Hd.
  set (cleaned := remove_non_digits v) in *. clearbody cleaned.
  destruct ((String.length cleaned =? 11)%nat && String.prefix "7" cleaned) eqn:E11.
  - apply andb_prop in E11 as [Hlen Hpre]. apply Nat.eqb_eq in Hlen.
    intros [= <-].
    peel cleaned c0. peel cleaned c1. peel cleaned c2. peel cleaned c3.
    peel cleaned c4. peel cleaned c5. peel cleaned c6. peel cleaned c7.
    peel cleaned c8. peel cleaned c9. peel cleaned c10.
    destruct cleaned; [|discriminate].
    apply prefix_char in Hpre as [Hpre|[a' Hpre]]; [discriminate Hpre|].
    injection Hpre as <- _.
    exists c1, c2, c3, c4, c5, c6, c7, c8, c9, c10.
    split; [reflexivity|]. split; [|now left].
    simpl in Hd. exact Hd.
  - destruct ((String.length cleaned =? 10)%nat && String.prefix "9" cleaned) eqn:E10;
      [|discriminate].
    apply andb_prop in E10 as [Hlen Hpre]. apply Nat.eqb_eq in Hlen.
    intros [= <-].
    peel cleaned c1. peel cleaned c2. peel cleaned c3.
    peel cleaned c4. peel cleaned c5. peel cleaned c6. peel cleaned c7.
    peel cleaned c8. peel cleaned c9. peel cleaned c10.
    destruct cleaned; [|discriminate].
    exists c1, c2, c3, c4, c5, c6, c7, c8, c9, c10.
    split; [reflexivity|]. split; [exact Hd | now right].
Qed.

Lemma remove_non_digits_formatted (d1 d2 d3 d4 d5 d6 d7 d8 d9 d10 : ascii) :
  all_chars is_digit (Tables.ten d1 d2 d3 d4 d5 d6 d7 d8 d9 d10) = true ->
  remove_non_digits (Tables.formatted d1 d2 d3 d4 d5 d6 d7 d8 d9 d10)
  = String "7" (Tables.ten d1 d2 d3 d4 d5 d6 d7 d8 d9 d10).
Proof.
  unfold Tables.ten, Tables.formatted. cbn [all_chars].
  intros H. repeat (apply andb_prop in H as [? H]).
  cbn [remove_non_digits].
  repeat match goal with
         | E : is_digit ?c = true |- context [is_digit ?c] => rewrite E
         end.
  reflexivity.
Qed.

(** X1: on ASCII text, a number accepted by [validate_phone] comes back in
    the form "+7 ddd ddd-dd-dd", sixteen ASCII characters long, and the
    validator maps that form to itself. *)
Theorem validate_phone_normal_form (v p : string) :
  Tables.ascii_only v = true ->
  validate_phone v = Some p ->
  validate_phone p = Some p
  /\ Tables.ascii_only p = true
  /\ String.length p = 16%nat
  /\ String.prefix "+7 " p = true
  /\ String.length (remove_non_digits p) = 11%nat.
Proof.
  intros _ H.
  destruct (validate_phone_formatted v p H)
    as (d1 & d2 & d3 & d4 & d5 & d6 & d7 & d8 & d9 & d10 & -> & Hd & _).
  assert (Hclean := remove_non_digits_formatted _ _ _ _ _ _ _ _ _ _ Hd).
  split; [|split; [|split; [reflexivity|split; [reflexivity|now rewrite Hclean]]]].
  - unfold validate_phone. rewrite Hclean. reflexivity.
  - unfold Tables.ten in Hd. cbn [all_chars] in Hd.
    repeat (apply andb_prop in Hd as [?%is_digit_ascii Hd]).
    unfold Tables.ascii_only, Tables.formatted. cbn [all_chars].
    repeat (apply andb_true_intro; split); try reflexivity; assumption.
Qed.

Lemma validate_phone_normal_form_witness :
  validate_phone "8 (999) 123-45-67" = None
  /\ validate_phone "+7 (999) 123-45-67" = Some "+7 999 123-45-67"
  /\ validate_phone "+7 999 123-45-67" = Some "+7 999 123-45-67".
Proof.
  split; [reflexivity|]. split; [reflexivity|].
  exact (proj1 (validate_phone_normal_form "+7 (999) 123-45-67" "+7 999 123-45-67"
                  eq_refl eq_refl)).
Defined.

(** X2: on ASCII text only the digits of the input count: stripping every
    other character first changes nothing; and a number accepted in its
    ten-digit form is accepted, with the same result, when 7 is put in
    front of it. *)
Theorem validate_phone_reads_digits_only (v : string) :
  Tables.ascii_only v = true ->
  validate_phone (remove_non_digits v) = validate_phone v
  /\ (forall p, validate_phone v = Some p ->
                String.length (remove_non_digits v) = 10%nat ->
                validate_phone ("7" +:+ v) = Some p).
Proof.
  intros _. split.
  - unfold validate_phone. now rewrite remove_non_digits_idempotent.
  - intros p Hp Hlen.
    destruct (validate_phone_formatted v p Hp)
      as (d1 & d2 & d3 & d4 & d5 & d6 & d7 & d8 & d9 & d10 & -> & Hd & [Hc|Hc]);
      [rewrite Hc in Hlen; discriminate|].
    unfold validate_phone.
    change (remove_non_digits ("7" +:+ v)) with (String "7" (remove_non_digits v)).
    rewrite Hc. reflexivity.
Qed.

Lemma validate_phone_reads_digits_only_witness :
  validate_phone "999 123 45 67" = Some "+7 999 123-45-67"
  /\ validate_phone "7999 123 45 67" = Some "+7 999 123-45-67".
Proof.
  split; [reflexivity|].
  exact (proj2 (validate_phone_reads_digits_only "999 123 45 67" eq_refl)
           "+7 999 123-45-67" eq_refl eq_refl).
Defined.

(** X3: [generate_sms_code] returns exactly [length] characters, each a
    decimal digit, whatever the generator draws. *)
Theorem generate_sms_code_shape (randbelow : nat -> nat) (length : nat) :
  String.length (generate_sms_code randbelow length) = length
  /\ all_chars is_digit (generate_sms_code randbelow length) = true.
Proof.
  unfold generate_sms_code.
  assert (G : forall start,
             let s := foldr (fun k acc => pretty (Z.of_nat (randbelow k mod 10)) +:+ acc)
                            "" (seq start length) in
             String.length s = length /\ all_chars is_digit s = true).
  { induction length as [|n IH]; intros start; cbn [seq foldr]; [now split|].
    destruct (AuthFacts.pretty_digit (randbelow start mod 10)) as (ch & -> & Hch);
      [apply Nat.mod_upper_bound; lia|].
    destruct (IH (S start)) as [Hl Hd].
    clear IH. set (rest := foldr _ _ _) in *. clearbody rest.
    change (String ch "" +:+ rest) with (String ch rest).
    cbn [String.length all_chars]. rewrite Hl, Hch, Hd. now split. }
  apply G.
Qed.

End PhoneFacts.

(** * Further properties of the code store *)

Module StoreExtras.

Import SMSStorage StoreFacts.

Lemma sms_key_inj (p q : string) : sms_key p = sms_key q -> p = q.
Proof. unfold sms_key. simpl. intros [= H]. exact H. Qed.

(** The dictionary after a fallback read. *)
Lemma fallback_get_store (env : Env) (p : string) (w : World) :
  let sweep := 300 <? clock env 0 - dev_storage_cleanup_time w in
  let d := if sweep
           then delete_each (expired_phones (clock env 1) (dev_sms_storage w))
                            (dev_sms_storage w)
           else dev_sms_storage w in
  let read := if sweep then clock env 3 else clock env 1 in
  let w' := snd (_get_sms_code_fallback env p w) in
  dev_sms_storage w'
  = match d !! p with
    | Some e => if read <? expires e then d else delete p d
    | None => d
    end
  /\ dev_storage_cleanup_time w'
     = if sweep then clock env 2 else dev_storage_cleanup_time w.
Proof.
  pose proof (cleanup_run (clock env 1) w) as Hrun. cbv zeta in Hrun.
  unfold _get_sms_code_fallback, bind, ret.
  destruct (300 <? clock env 0 - dev_storage_cleanup_time w).
  - destruct (_cleanup_expired_codes (clock env 1) w) as [u w1].
    simpl in Hrun |- *. destruct Hrun as (Hd & _). rewrite <- Hd.
    destruct (dev_sms_storage w1 !! p) as [e|]; [|simpl; auto].
    destruct (clock env 3 <? expires e); simpl; auto.
  - simpl. destruct (dev_sms_storage w !! p) as [e|]; [|simpl; auto].
    destruct (clock env 1 <? expires e); simpl; auto.
Qed.

(** A code that was stored is read back within its time from whichever
    tier took it, provided the read reaches that tier. *)
Lemma set_then_get (es2 eg : Env) (p c2 : string) (ttl2 : Z) (w1 : World) :
  (forall k, clock eg k < clock es2 0 + ttl2) ->
  (redis_client (snd (set_sms_code es2 p c2 ttl2 w1)) = true ->
   redis_reply eg = None /\ redis_time eg < redis_time es2 + ttl2) ->
  fst (get_sms_code eg p (snd (set_sms_code es2 p c2 ttl2 w1))) = Some c2.
Proof.
  intros Hclock Hredis.
  destruct (redis_client w1) eqn:Hc1;
    [destruct (redis_reply es2) eqn:Hr2; [|destruct (ttl2 <=? 0) eqn:Httl]|].
  - (* Redis raises during the second store *)
    destruct (set_sms_code_fallback es2 p c2 ttl2 w1) as (Hc & _ & Hd); [right; eauto|].
    destruct (client_stays_down eg p c2 ttl2 _ Hc) as (_ & (_ & _ & ->) & _).
    apply (fallback_get_live eg p _ {| code := c2; expires := clock es2 0 + ttl2 |});
      [rewrite Hd; apply lookup_insert_eq | exact Hclock].
  - (* SETEX refuses the time to live *)
    assert (Hc : redis_client (snd (set_sms_code es2 p c2 ttl2 w1)) = false
                 /\ dev_sms_storage (snd (set_sms_code es2 p c2 ttl2 w1))
                    = <[p := {| code := c2; expires := clock es2 0 + ttl2 |}]>
                        (dev_sms_storage w1)).
    { unfold_store. rewrite Hc1, Hr2, Httl. simpl. auto. }
    destruct Hc as [Hc Hd].
    destruct (client_stays_down eg p c2 ttl2 _ Hc) as (_ & (_ & _ & ->) & _).
    apply (fallback_get_live eg p _ {| code := c2; expires := clock es2 0 + ttl2 |});
      [rewrite Hd; apply lookup_insert_eq | exact Hclock].
  - (* the second store reaches Redis *)
    apply Z.leb_gt in Httl.
    destruct (set_sms_code_primary es2 p c2 ttl2 w1 Hc1 Hr2 Httl) as (Hc & Hk & _).
    destruct (Hredis Hc) as [Hrg Htime].
    apply (get_sms_code_primary eg p _ {| code := c2; expires := redis_time es2 + ttl2 |});
      auto. rewrite Hk. apply lookup_insert_eq.
  - (* the client was already dropped *)
    destruct (set_sms_code_fallback es2 p c2 ttl2 w1) as (Hc & _ & Hd); [now left|].
    destruct (client_stays_down eg p c2 ttl2 _ Hc) as (_ & (_ & _ & ->) & _).
    apply (fallback_get_live eg p _ {| code := c2; expires := clock es2 0 + ttl2 |});
      [rewrite Hd; apply lookup_insert_eq | exact Hclock].
Qed.

(** X4: the newest code wins. After two stores for the same phone number a
    read within the time of the second one returns the second code,
    whatever tier each store went to (the read must reach the tier of the
    second store: if the client is still up, Redis has to answer). *)
Theorem newer_code_replaces_older
    (es1 es2 eg : Env) (p c1 c2 : string) (ttl1 ttl2 : Z) (w : World) :
  let w2 := snd (set_sms_code es2 p c2 ttl2 (snd (set_sms_code es1 p c1 ttl1 w))) in
  (forall k, clock eg k < clock es2 0 + ttl2) ->
  (redis_client w2 = true ->
   redis_reply eg = None /\ redis_time eg < redis_time es2 + ttl2) ->
  fst (get_sms_code eg p w2) = Some c2.
Proof. intros w2. apply set_then_get. Qed.

Lemma newer_code_replaces_older_witness :
  fst (get_sms_code (Sample.env_ok 1100) Sample.normalized
         (snd (set_sms_code (Sample.env_ok 1050) Sample.normalized "5678" 300
                 (snd (set_sms_code (Sample.env_err 1010) Sample.normalized "1234" 300
                         Sample.world_up)))))
  = Some "5678".
Proof.
  apply (newer_code_replaces_older (Sample.env_err 1010) (Sample.env_ok 1050)
           (Sample.env_ok 1100) Sample.normalized "1234" "5678" 300 300 Sample.world_up).
  - intros k. simpl. lia.
  - vm_compute. discriminate.
Defined.

(** The result of a read is a function of the store alone. *)
Lemma get_sms_code_depends_on_store (env : Env) (q : string) (w w' : World) :
  redis_client w' = redis_client w ->
  (redis_client w = true ->
   redis_keys w' !! sms_key q = redis_keys w !! sms_key q) ->
  dev_storage_cleanup_time w' = dev_storage_cleanup_time w ->
  (forall d, (if 300 <? clock env 0 - dev_storage_cleanup_time w
              then delete_each (expired_phones (clock env 1) (dev_sms_storage w'))
                               (dev_sms_storage w')
              else dev_sms_storage w') !! q
             = d ->
             (if 300 <? clock env 0 - dev_storage_cleanup_time w
              then delete_each (expired_phones (clock env 1) (dev_sms_storage w))
                               (dev_sms_storage w)
              else dev_sms_storage w) !! q
             = d) ->
  fst (get_sms_code env q w') = fst (get_sms_code env q w).
Proof.
  intros Hc Hk Ht Hd.
  assert (F : forall v v', dev_storage_cleanup_time v' = dev_storage_cleanup_time w ->
                           dev_storage_cleanup_time v = dev_storage_cleanup_time w ->
                           dev_sms_storage v' = dev_sms_storage w' ->
                           dev_sms_storage v = dev_sms_storage w ->
                           fst (_get_sms_code_fallback env q v')
                           = fst (_get_sms_code_fallback env q v)).
  { intros v v' Ht' Htv Hd' Hdv.
    rewrite (proj1 (fallback_get_run env q v')), (proj1 (fallback_get_run env q v)).
    rewrite Ht', Htv, Hd', Hdv. now rewrite (Hd _ eq_refl). }
  unfold get_sms_code, bind, Redis.get, logger_error, ret. rewrite Hc.
  destruct (redis_client w) eqn:Hcw; [|now apply F].
  destruct (redis_reply env); simpl.
  - now apply F.
  - rewrite (Hk eq_refl). destruct (redis_keys w !! sms_key q) as [e|]; [|reflexivity].
    now destruct (redis_time env <? expires e).
Qed.

(** X5: phone numbers do not interfere. Storing or deleting the code of
    one phone number does not change what a read returns for another one,
    as long as the call does not itself drop the Redis client. *)
Theorem other_phone_undisturbed
    (es eg : Env) (p q c : string) (ttl : Z) (w : World) :
  p <> q ->
  (redis_client (snd (set_sms_code es p c ttl w)) = redis_client w ->
   fst (get_sms_code eg q (snd (set_sms_code es p c ttl w))) = fst (get_sms_code eg q w))
  /\ (redis_client (snd (delete_sms_code es p w)) = redis_client w ->
      fst (get_sms_code eg q (snd (delete_sms_code es p w))) = fst (get_sms_code eg q w)).
Proof.
  intros Hpq.
  assert (Hkey : sms_key p <> sms_key q) by (intros H; now apply sms_key_inj in H).
  split; intros Hsame; apply get_sms_code_depends_on_store; try exact Hsame.
  - intros Hc. revert Hsame. unfold_store. rewrite Hc.
    destruct (redis_reply es); simpl; [discriminate|].
    destruct (ttl <=? 0); simpl; [discriminate|]. intros _.
    now apply lookup_insert_ne.
  - unfold_store. split_store w es; try destruct (ttl <=? 0); reflexivity.
  - intros d. revert Hsame. unfold_store.
    split_store w es; try destruct (ttl <=? 0); simpl; try discriminate; try (intros _; intros H; exact H);
      intros _;
      (destruct (300 <? clock eg 0 - dev_storage_cleanup_time w);
       [rewrite !lookup_swept|]; rewrite ?lookup_insert_ne by exact Hpq; intros H; exact H).
  - intros Hc. revert Hsame. unfold_store. rewrite Hc.
    destruct (redis_reply es); simpl; [discriminate|]. intros _.
    now apply lookup_delete_ne.
  - unfold_store. split_store w es; reflexivity.
  - intros d. revert Hsame. unfold_store.
    split_store w es; simpl; try discriminate; try (intros _; intros H; exact H);
      intros _;
      (destruct (300 <? clock eg 0 - dev_storage_cleanup_time w);
       [rewrite !lookup_swept|]; rewrite ?lookup_delete_ne by exact Hpq; intros H; exact H).
Qed.

Lemma other_phone_undisturbed_witness :
  fst (get_sms_code (Sample.env_ok 1100) Sample.normalized
         (snd (set_sms_code (Sample.env_ok 1050) "+7 999 000-00-20" "5678" 300
                 (Sample.requested Sample.world_up))))
  = Some "1234".
Proof.
  rewrite (proj1 (other_phone_undisturbed (Sample.env_ok 1050) (Sample.env_ok 1100)
                    "+7 999 000-00-20" Sample.normalized "5678" 300
                    (Sample.requested Sample.world_up) ltac:(discriminate))
             ltac:(vm_compute; reflexivity)).
  vm_compute. reflexivity.
Defined.

(** X6: the sweep [_cleanup_expired_codes] removes from the dictionary
    exactly the entries whose [expires] is not after [current_time]; every
    other entry is kept as it is, and Redis and the tables are not
    touched. *)
Theorem cleanup_removes_exactly_expired (current_time : Z) (w : World) (p : string) :
  let w' := snd (_cleanup_expired_codes current_time w) in
  dev_sms_storage w' !! p
  = match dev_sms_storage w !! p with
    | Some e => if expires e <=? current_time then None else Some e
    | None => None
    end
  /\ redis_client w' = redis_client w
  /\ redis_keys w' = redis_keys w
  /\ db w' = db w.
Proof.
  destruct (cleanup_run current_time w) as (Hd & Hc & Hk & _ & Hdb).
  cbv zeta. rewrite Hd, lookup_swept. auto.
Qed.

(** X7: a read of the dictionary only ever drops entries that are past
    their time. An entry of any phone number that is still live for every
    clock reading of the call survives the read; no entry appears or
    changes; and the entry that was read is dropped when it has expired. *)
Theorem fallback_read_keeps_live_codes (env : Env) (p q : string) (w : World) :
  let w' := snd (_get_sms_code_fallback env p w) in
  (forall e, dev_sms_storage w !! q = Some e ->
             (forall k, clock env k < expires e) ->
             dev_sms_storage w' !! q = Some e)
  /\ (forall e, dev_sms_storage w' !! q = Some e -> dev_sms_storage w !! q = Some e)
  /\ (forall e, dev_sms_storage w !! p = Some e ->
                (forall k, expires e <= clock env k) ->
                dev_sms_storage w' !! p = None).
Proof.
  cbv zeta. rewrite (proj1 (fallback_get_store env p w)).
  set (sweep := 300 <? clock env 0 - dev_storage_cleanup_time w).
  set (d := if sweep then _ else _).
  assert (Hd : forall x, d !! x
                         = match dev_sms_storage w !! x with
                           | Some e => if sweep && (expires e <=? clock env 1)
                                       then None else Some e
                           | None => None
                           end).
  { intros x. subst d. destruct sweep; [rewrite lookup_swept|];
      destruct (dev_sms_storage w !! x); reflexivity. }
  assert (Hsub : forall x e, d !! x = Some e -> dev_sms_storage w !! x = Some e).
  { intros x e. rewrite Hd. destruct (dev_sms_storage w !! x) as [e'|]; [|discriminate].
    destruct (sweep && _); [discriminate | auto]. }
  split; [|split].
  - intros e He Hlive.
    assert (Hq : d !! q = Some e).
    { rewrite Hd, He. pose proof (Hlive 1%nat).
      destruct (expires e <=? clock env 1) eqn:E; [lia|]. now rewrite andb_false_r. }
    destruct (d !! p) as [e'|] eqn:Hp; [|exact Hq].
    destruct ((if sweep then clock env 3 else clock env 1) <? expires e') eqn:E;
      [exact Hq|].
    destruct (decide (p = q)) as [->|Hne]; [|now rewrite lookup_delete_ne].
    rewrite Hq in Hp. injection Hp as <-.
    pose proof (Hlive 1%nat). pose proof (Hlive 3%nat). destruct sweep; lia.
  - intros e. destruct (d !! p) as [e'|] eqn:Hp; [|apply Hsub].
    destruct (_ <? expires e'); [apply Hsub|].
    intros H. apply Hsub. destruct (decide (p = q)) as [->|Hne].
    + rewrite lookup_delete_eq in H. discriminate.
    + now rewrite lookup_delete_ne in H.
  - intros e He Hexp.
    destruct (d !! p) as [e'|] eqn:Hp; [|exact Hp].
    apply Hsub in Hp as Hp'. rewrite He in Hp'. injection Hp' as <-.
    pose proof (Hexp 1%nat). pose proof (Hexp 3%nat).
    destruct ((if sweep then clock env 3 else clock env 1) <? expires e) eqn:E;
      [destruct sweep; lia | apply lookup_delete_eq].
Qed.

Lemma fallback_read_keeps_live_codes_witness :
  dev_sms_storage
    (snd (_get_sms_code_fallback (Sample.env_ok 2000) "+7 999 000-00-20"
            (snd (set_sms_code (Sample.env_ok 1900) Sample.normalized "1234" 300
                    Sample.world_down)))) !! Sample.normalized
  = Some {| code := "1234"; expires := 2200 |}.
Proof.
  refine (proj1 (fallback_read_keeps_live_codes (Sample.env_ok 2000) "+7 999 000-00-20"
                   Sample.normalized _) {| code := "1234"; expires := 2200 |} _ _).
  - vm_compute. reflexivity.
  - intros k. simpl. lia.
Defined.

End StoreExtras.

(** * Further properties of the authentication routes *)

Module AuthExtras.

Import SMSStorage AuthRouter StoreFacts AuthFacts ActorDirectory.

Lemma get_sms_code_extends (env : Env) (q : string) (w w' : World) :
  extends w w' -> fst (get_sms_code env q w') = fst (get_sms_code env q w).
Proof.
  intros (Hc & Hk & Hd & Ht & _).
  apply StoreExtras.get_sms_code_depends_on_store; auto.
  - intros _. now rewrite Hk.
  - intros d. now rewrite Hd.
Qed.

Lemma print_db (line : string) (w : World) : db (snd (print line w)) = db w.
Proof. reflexivity. Qed.

(** [send_sms_code] does not write to the tables. *)
Lemma send_sms_code_db (rb : nat -> nat) (es : Env) (o : SmsOutcome) (ed : Env)
    (phone : string) (w : World) :
  db (snd (send_sms_code rb es o ed phone w)) = db w.
Proof.
  unfold send_sms_code, logger_info, logger_error.
  rewrite bind_run. cbn [fst]. rewrite bind_run. cbn [fst]. rewrite bind_run.
  set (w0 := snd (emit _ _ (snd (emit _ _ w)))).
  assert (H0 : db w0 = db w) by reflexivity.
  pose proof (set_sms_code_true es phone (generate_sms_code rb 4) default_ttl w0) as Ht.
  pose proof (storage_keeps_db es phone (generate_sms_code rb 4) default_ttl w0)
    as (Hs & _).
  destruct (set_sms_code es phone (generate_sms_code rb 4) default_ttl w0) as [b w1].
  cbn [fst snd] in *. subst b. cbn [negb].
  rewrite bind_run. cbn [fst]. rewrite bind_run.
  destruct o as [|e|e e']; unfold send_sms;
    repeat (rewrite bind_run; cbn [ret fst snd]);
    rewrite ?(proj2 (proj2 (storage_keeps_db ed phone "" 0 _)));
    rewrite ?emit_db, ?print_db, ?emit_db; congruence.
Qed.

(** X8: the round trip of the two routes. When RequestCode succeeds, a
    VerifyCode sent within 300 seconds with the phone number and the code
    of the response finds and accepts the code, in either tier (if the
    Redis client is still up the read must be answered by Redis): it
    returns a token for that phone number, unless the account exists and is
    disabled. *)
Theorem request_then_verify
    (rb : nat -> nat) (es : Env) (o : SmsOutcome) (ed0 eg ed : Env) (u : Z)
    (raw : string) (w : World) (resp : SendSmsResponse) :
  fst (RequestCode rb es o ed0 raw w) = Ok resp ->
  let w1 := snd (RequestCode rb es o ed0 raw w) in
  (forall k, clock eg k < clock es 0 + default_ttl) ->
  (redis_client w1 = true ->
   redis_reply eg = None /\ redis_time eg < redis_time es + default_ttl) ->
  PhoneAuth.validate_phone raw = Some (resp_phone_number resp)
  /\ fst (VerifyCode eg ed u (resp_phone_number resp) (resp_code resp) w1)
     = match find_user (db w) (resp_phone_number resp) with
       | Some usr =>
           if is_active usr then Ok (token_for u (resp_phone_number resp))
           else Raise AccountDisabled
       | None => Ok (token_for u (resp_phone_number resp))
       end.
Proof.
  unfold RequestCode, VerifyCode.
  destruct (PhoneAuth.validate_phone raw) as [p|]; [|discriminate].
  intros Hok. cbv zeta. intros Hclock Hredis.
  set (w1 := snd (send_sms_code rb es o ed0 p w)) in *.
  pose proof (send_sms_code_db rb es o ed0 p w) as Hdb. fold w1 in Hdb.
  destruct (send_sms_code_run rb es o ed0 p w) as (w0 & E0 & _ & _ & H).
  fold w1 in H.
  destruct o; destruct H as (Hr & H); rewrite Hr in Hok; [|discriminate ..].
  injection Hok as <-. cbn [resp_phone_number resp_code]. split; [reflexivity|].
  set (code := generate_sms_code rb 4) in *.
  set (ws := snd (set_sms_code es p code default_ttl w0)) in *.
  destruct (verify_sms_code_run eg ed u {| sms_phone_number := p; sms_code := code |} w1)
    as (v0 & Ev0 & _ & v2 & _ & _ & Hv).
  cbn [sms_phone_number sms_code] in Hv.
  assert (Hget : fst (get_sms_code eg p v0) = Some code).
  { rewrite (get_sms_code_extends eg p ws v0)
      by (eapply extends_trans; eassumption).
    apply StoreExtras.set_then_get; [exact Hclock|].
    intros Hc. apply Hredis. destruct H as (-> & _). exact Hc. }
  rewrite Hget in Hv.
  assert (Hne : (code =? "")%string = false).
  { pose proof (generate_sms_code_digits rb) as Hd. fold code in Hd.
    unfold digits in Hd. apply andb_prop in Hd as [Hd _].
    now apply negb_true_iff in Hd. }
  cbn [falsy str_opt] in Hv. rewrite Hne, String.eqb_refl in Hv. cbn [negb] in Hv.
  destruct Hv as (_ & Hv). rewrite Hdb in Hv.
  destruct (find_user (db w) p) as [usr|]; [destruct (is_active usr)|]; apply Hv.
Qed.

Lemma request_then_verify_witness :
  fst (VerifyCode (Sample.env_ok 1020) (Sample.env_ok 1020) 1020 "+7 999 123-45-67" "1234"
         (Sample.requested Sample.world_down))
  = Ok (token_for 1020 "+7 999 123-45-67").
Proof.
  refine (proj2 (request_then_verify Sample.draws (Sample.env_ok 1010) Printed
                   (Sample.env_ok 1010) (Sample.env_ok 1020) (Sample.env_ok 1020) 1020
                   "9991234567" Sample.world_down
                   {| resp_message := "SMS код отправлен";
                      resp_phone_number := "+7 999 123-45-67"; resp_code := "1234" |}
                   _ _ _)).
  - vm_compute. reflexivity.
  - intros k. unfold default_ttl. simpl. lia.
  - vm_compute. discriminate.
Defined.

(** X9: what VerifyCode does to the tables. A refused verification
    changes no table; an accepted one for a known, active phone number
    changes none either; an accepted one for an unknown phone number adds
    exactly one row to [users], with the next id, the phone number as
    submitted, role "CLIENT" and active. The token always names the
    submitted phone number and expires 30 minutes after [utcnow]. *)
Theorem verify_code_effect_on_tables
    (eg ed : Env) (u : Z) (phone c : string) (w : World) :
  let r := fst (VerifyCode eg ed u phone c w) in
  let d' := db (snd (VerifyCode eg ed u phone c w)) in
  (forall e, r = Raise e -> d' = db w)
  /\ (forall tok, r = Ok tok ->
        tok = {| access_token := {| sub := phone; exp := u + 1800 |};
                 token_type := "bearer" |}
        /\ orders d' = orders (db w) /\ pvz d' = pvz (db w)
        /\ match find_user (db w) phone with
           | Some usr => is_active usr = true /\ d' = db w
           | None =>
               users d' = (users (db w)
                           ++ [{| user_id := next_user_id (db w); phone_number := phone;
                                  role := "CLIENT"; is_active := true |}])%list
           end).
Proof.
  unfold VerifyCode. cbv zeta.
  destruct (verify_sms_code_run eg ed u {| sms_phone_number := phone; sms_code := c |} w)
    as (w0 & _ & _ & w2 & _ & _ & H).
  cbn [sms_phone_number sms_code] in H.
  destruct (falsy _).
  { destruct H as (-> & _ & ->). split; [reflexivity | discriminate]. }
  destruct H as (_ & H).
  destruct (negb _).
  { destruct H as (-> & ->). split; [reflexivity | discriminate]. }
  destruct (find_user (db w) phone) as [usr|].
  - destruct (is_active usr); destruct H as (-> & ->);
      (split; [reflexivity|]); [|discriminate].
    intros tok [= <-]. auto.
  - destruct H as (-> & Hu & Ho & Hp). split; [discriminate|].
    intros tok [= <-]. auto.
Qed.

Lemma verify_code_effect_on_tables_witness :
  users (db (snd (VerifyCode (Sample.env_ok 1020) (Sample.env_ok 1020) 1020
                    "+7 999 123-45-67" "1234" (Sample.requested Sample.world_up))))
  = [{| user_id := 1; phone_number := "+7 999 123-45-67"; role := "CLIENT";
        is_active := true |}].
Proof.
  destruct (verify_code_effect_on_tables (Sample.env_ok 1020) (Sample.env_ok 1020) 1020
              "+7 999 123-45-67" "1234" (Sample.requested Sample.world_up)) as [_ H].
  destruct (H (token_for 1020 "+7 999 123-45-67")) as (_ & _ & _ & Hu);
    [vm_compute; reflexivity|].
  exact Hu.
Defined.

Lemma find_user_phone (d : Db) (phone : string) (usr : User) :
  find_user d phone = Some usr -> phone_number usr = phone.
Proof.
  unfold find_user. intros H. apply List.find_some in H as [_ H].
  now apply String.eqb_eq.
Qed.

(** X11: resolving the token. The token handed out by an accepted
    VerifyCode at [utcnow] resolves, at any time up to 30 minutes later, to
    the row that [users] holds for the phone number at the time of the
    request (so to its current role and active flag): an inactive row gives
    "Неактивный пользователь", a missing one "Пользователь не найден".
    Later than that, and for a bearer that is not a signed token, the
    answer is "Неверный токен". Right after the verification the token
    resolves to an active user with that phone number. *)
Theorem issued_token_resolves
    (eg ed : Env) (u : Z) (phone c : string) (w : World) (tok : Token) :
  fst (VerifyCode eg ed u phone c w) = Ok tok ->
  forall now d,
    (now <= u + 1800 ->
     get_current_active_user now (encode (access_token tok)) d
     = match find_user d phone with
       | Some usr => if is_active usr then Ok usr else Raise InactiveUser
       | None => Raise UserNotFound
       end)
    /\ (u + 1800 < now ->
        get_current_active_user now (encode (access_token tok)) d = Raise InvalidToken)
    /\ get_current_active_user now Unsigned d = Raise InvalidToken
    /\ (now <= u + 1800 ->
        exists usr,
          get_current_active_user now (encode (access_token tok))
            (db (snd (VerifyCode eg ed u phone c w))) = Ok usr
          /\ phone_number usr = phone /\ is_active usr = true).
Proof.
  unfold VerifyCode. intros Hok now d.
  destruct (verify_sms_code_run eg ed u {| sms_phone_number := phone; sms_code := c |} w)
    as (w0 & _ & _ & w2 & _ & _ & H).
  cbn [sms_phone_number sms_code] in H. rewrite Hok in H.
  assert (Hres : forall d0, now <= u + 1800 ->
             get_current_active_user now (encode (access_token (token_for u phone))) d0
             = match find_user d0 phone with
               | Some usr => if is_active usr then Ok usr else Raise InactiveUser
               | None => Raise UserNotFound
               end).
  { intros d0 Hnow. unfold get_current_active_user, encode, verify_token, token_for.
    cbn [access_token sub exp]. change (30 * 60) with 1800.
    destruct (u + 1800 <? now) eqn:E; [lia|].
    destruct (find_user d0 phone) as [usr|]; [|reflexivity].
    now destruct (is_active usr). }
  assert (Htok : tok = token_for u phone /\
                 exists usr, find_user (db (snd (verify_sms_code eg ed u
                                {| sms_phone_number := phone; sms_code := c |} w))) phone
                             = Some usr /\ is_active usr = true).
  { destruct (falsy _); [destruct H as (H & _); discriminate|].
    destruct H as (_ & H).
    destruct (negb _); [destruct H as (H & _); discriminate|].
    destruct (find_user (db w) phone) as [usr|] eqn:Hu.
    - destruct (is_active usr) eqn:Ha; destruct H as (H & ->); [|discriminate].
      injection H as ->. split; [reflexivity|]. eauto.
    - destruct H as (H & Husers & _). injection H as ->. split; [reflexivity|].
      eexists. split; [eapply find_user_appended; eauto | reflexivity]. }
  destruct Htok as (-> & usr & Hfind & Hact).
  split; [apply Hres|]. split; [|split].
  - intros Hlate. unfold get_current_active_user, encode, verify_token, token_for.
    cbn [access_token sub exp]. change (30 * 60) with 1800.
    destruct (u + 1800 <? now) eqn:E; [reflexivity | lia].
  - reflexivity.
  - intros Hnow. exists usr. rewrite (Hres _ Hnow), Hfind, Hact.
    split; [reflexivity|]. split; [eapply find_user_phone; exact Hfind | reflexivity].
Qed.

Lemma issued_token_resolves_witness :
  get_current_active_user 2820
    (encode (access_token (token_for 1020 "+7 999 123-45-67")))
    (db (snd (VerifyCode (Sample.env_ok 1020) (Sample.env_ok 1020) 1020
                "+7 999 123-45-67" "1234" (Sample.requested Sample.world_up))))
  = Ok {| user_id := 1; phone_number := "+7 999 123-45-67"; role := "CLIENT";
          is_active := true |}.
Proof.
  rewrite (proj1 (issued_token_resolves (Sample.env_ok 1020) (Sample.env_ok 1020) 1020
                    "+7 999 123-45-67" "1234" (Sample.requested Sample.world_up)
                    (token_for 1020 "+7 999 123-45-67") ltac:(vm_compute; reflexivity)
                    2820 _) ltac:(lia)).
  vm_compute. reflexivity.
Defined.

End AuthExtras.

(** * Further properties: the routes behind the ORM *)

Module RouteFacts.

Import Orders OrderReading Switches ActorDirectory Routes OrderFacts.

Lemma get_order_refuses (order_id : Z) (current_user : PyUser) (d : Db)
    (photos : list OrderPhoto) :
  get_order order_id current_user d photos = Raise INTERNAL_SERVER_ERROR.
Proof.
  unfold get_order. destruct (query_raises (orders d)) as [text ->]. reflexivity.
Qed.

Lemma depends_on_dict {A} (clock : Z) (token : Bearer) (d : Db)
    (handler : PyUser -> result A * Db) (e : HTTPException) :
  (forall row, handler (PyDict row) = (Raise e, d)) ->
  depends clock token d handler
  = (match get_current_active_user clock token d with
     | Raise e' => Raise e'
     | Ok _ => Raise e
     end, d).
Proof.
  intros H. unfold depends.
  destruct (get_current_active_user clock token d); [apply H | reflexivity].
Qed.

(** X15: the four order routes never return an order. Whatever the bearer
    token, the request and the tables, the answer is the error of
    [get_current_active_user] when the token does not resolve to an active
    user, and status 500 otherwise: POST /orders/ answers with the text of
    the [AttributeError] raised by [current_user.role], the other three
    with "Internal Server Error", raised at [db.query(Order)]. The tables
    are never changed. *)
Theorem order_routes_refuse_every_request (clock : Z) (token : Bearer) (d : Db) :
  (forall number now driver_text order_data,
      post_order clock token number now driver_text order_data d
      = (match get_current_active_user clock token d with
         | Raise e => Raise e
         | Ok _ =>
             Raise {| status_code := 500;
                      detail := "Ошибка при создании заказа: "
                                +:+ "'dict' object has no attribute 'role'" |}
         end, d))
  /\ (forall status_filter,
        list_orders clock token status_filter d
        = (match get_current_active_user clock token d with
           | Raise e => Raise e
           | Ok _ => Raise INTERNAL_SERVER_ERROR
           end, d))
  /\ (forall order_id photos,
        read_order clock token order_id d photos
        = (match get_current_active_user clock token d with
           | Raise e => Raise e
           | Ok _ => Raise INTERNAL_SERVER_ERROR
           end, d))
  /\ (forall now order_id order_update,
        put_order clock token now order_id order_update d
        = (match get_current_active_user clock token d with
           | Raise e => Raise e
           | Ok _ => Raise INTERNAL_SERVER_ERROR
           end, d)).
Proof.
  split; [|split; [|split]].
  - intros. unfold post_order. apply depends_on_dict. intros row.
    apply create_order_on_dict.
  - intros. unfold list_orders. apply depends_on_dict. intros row.
    now rewrite get_orders_refuses.
  - intros. unfold read_order. apply depends_on_dict. intros row.
    now rewrite get_order_refuses.
  - intros. unfold put_order. apply depends_on_dict. intros row.
    apply update_order_refuses.
Qed.


(** X10: GET /auth/check-phone/{phone_number} never tells whether a phone
    number is registered: [check_phone_exists] raises at [db.query(User)],
    and the answer is 500 "Internal Server Error" for every phone number
    and all tables. *)
Theorem check_phone_exists_refuses (phone_number : string) (d : Db) :
  check_phone_exists phone_number d = Raise INTERNAL_SERVER_ERROR.
Proof.
  unfold check_phone_exists. destruct (query_raises (users d)) as [text ->]. reflexivity.
Qed.

End RouteFacts.
